(** * Deep-Search: the research pipeline and its HTTP facade

    A shallow embedding of [agents.py] and [api.py].

    The program is Python glue around three outside parties: the process
    environment, the LinkUp search provider and the crewAI orchestration
    package driving a hosted LLM.  The code of the repository is embedded
    as functions of a state-and-exception monad [M]; the outside parties
    are a record of oracles [Services], over which every theorem is
    universally quantified.  Each oracle receives the current [State], so a
    provider or a model may answer differently from one call to the next. *)

From Stdlib Require Import QArith.
From stdpp Require Import base numbers strings pretty list gmap.

Open Scope string_scope.
Open Scope list_scope.

(** ** Python exceptions and results *)

(** Instances of [Exception].  [HTTPException] is the FastAPI subclass the
    HTTP facade raises; everything else is kept by its message, i.e. by the
    text [str(e)] yields. *)
Inductive exn : Type :=
| Exception (msg : string)
| HTTPException (status_code : Z) (detail : string).

(** [str(e)] *)
Definition str_exn (e : exn) : string :=
  match e with
  | Exception msg => msg
  | HTTPException status_code detail => pretty status_code +:+ ": " +:+ detail
  end.

(** The outcome of evaluating a Python expression: a value or a raised
    exception. *)
Inductive outcome (A : Type) : Type :=
| Ok (a : A)
| Raise (e : exn).
Arguments Ok {A} a.
Arguments Raise {A} e.

Definition is_ok {A} (r : outcome A) : bool :=
  match r with Ok _ => true | Raise _ => false end.

(** ** Data model of [agents.py] *)

(** [crewai.LLM(model=..., verbose=..., temperature=..., api_key=...)] *)
Record LLM : Type := {
  model : string;
  llm_verbose : bool;
  temperature : Q;
  api_key : option string
}.

(** A [BaseTool] instance, by its class attributes.  The only tool class of
    the repository is [LinkUpSearchTool]. *)
Record Tool : Type := {
  name : string;
  tool_description : string
}.

(** [crewai.Agent(role=..., goal=..., backstory=..., verbose=...,
    allow_delegation=..., tools=..., llm=...)]; [tools] defaults to the
    empty list when the keyword is not given. *)
Record Agent : Type := {
  role : string;
  goal : string;
  backstory : string;
  verbose : bool;
  allow_delegation : bool;
  tools : list Tool;
  llm : LLM
}.

(** Task objects live in a store and are named by their address: Python
    hands [search_task] itself, not a copy, to [context=[search_task]] and to
    [tasks=[search_task, ...]]. *)
Definition TaskRef : Type := nat.

(** [crewai.Task(description=..., agent=..., expected_output=..., tools=...,
    context=...)].  [context] is [None] when the keyword is not given;
    [output] is filled in by the orchestrator once the task has run. *)
Record Task : Type := {
  description : string;
  agent : Agent;
  expected_output : string;
  task_tools : list Tool;
  context : option (list TaskRef);
  output : option string
}.

Inductive Process : Type := sequential | hierarchical.

(** [crewai.Crew(agents=..., tasks=..., verbose=..., process=...)] *)
Record Crew : Type := {
  agents : list Agent;
  tasks : list TaskRef;
  crew_verbose : bool;
  process : Process
}.

(** What [Crew.kickoff()] returns. *)
Record CrewOutput : Type := {
  raw : string;
  tasks_output : list string
}.

(** [linkup.LinkupClient(api_key=...)] *)
Record LinkupClient : Type := {
  client_api_key : option string
}.

(** The provider's answer; the code only ever applies [str] to it. *)
Record SearchResponse : Type := {
  response_text : string
}.

Definition str_response (r : SearchResponse) : string := response_text r.

(** ** Observable events and program state *)

Inductive Event : Type :=
| EvLoadDotenv
| EvGetenv (key : string)
| EvSearch (query depth output_type : string)
| EvTaskStart (t : TaskRef) (ctx : string)
| EvTaskEnd (t : TaskRef) (out : string).

Record State : Type := {
  environ : gmap string string;     (* os.environ *)
  dotenv_file : gmap string string; (* the .env file read by load_dotenv *)
  heap : list Task;                 (* the Task objects created so far *)
  log : list Event                  (* what happened, oldest first *)
}.

Definition set_environ (env : gmap string string) (st : State) : State :=
  {| environ := env; dotenv_file := dotenv_file st;
     heap := heap st; log := log st |}.

Definition set_heap (h : list Task) (st : State) : State :=
  {| environ := environ st; dotenv_file := dotenv_file st;
     heap := h; log := log st |}.

Definition add_event (e : Event) (st : State) : State :=
  {| environ := environ st; dotenv_file := dotenv_file st;
     heap := heap st; log := log st ++ [e] |}.

(** ** The monad of Python computations *)

Definition M (A : Type) : Type := State -> outcome A * State.

Definition ret {A} (a : A) : M A := fun st => (Ok a, st).

Definition raise {A} (e : exn) : M A := fun st => (Raise e, st).

Definition bind {A B} (m : M A) (f : A -> M B) : M B :=
  fun st =>
    match m st with
    | (Ok a, st') => f a st'
    | (Raise e, st') => (Raise e, st')
    end.

(** [try: body  except Exception as e: handler(e)] *)
Definition try_except {A} (body : M A) (handler : exn -> M A) : M A :=
  fun st =>
    match body st with
    | (Ok a, st') => (Ok a, st')
    | (Raise e, st') => handler e st'
    end.

Definition get_state : M State := fun st => (Ok st, st).

Definition emit (e : Event) : M unit := fun st => (Ok tt, add_event e st).

Notation "'let!' x ':=' m 'in' k" := (bind m (fun x => k))
  (at level 10, x binder, m at level 100, k at level 200,
   format "'[v' 'let!'  x  ':='  m  'in' '/' k ']'").

(** [os.getenv(key)] *)
Definition getenv (key : string) : M (option string) :=
  fun st => (Ok (environ st !! key), add_event (EvGetenv key) st).

(** [load_dotenv()]: variables of the .env file are added to the
    environment; a variable that is already set keeps its value. *)
Definition load_dotenv : M unit :=
  fun st =>
    (Ok tt, add_event EvLoadDotenv
              (set_environ (environ st ∪ dotenv_file st) st)).

(** ** The outside parties *)

(** What the language model decides to do with a task: answer (or fail), or
    call a tool and go on from the tool's observation. *)
Inductive AgentProg : Type :=
| Final (r : outcome string)
| CallTool (tool_name : string) (query : string)
           (depth output_type : option string) (k : string -> AgentProg).

(** Calls into third-party packages that may fail. *)
Inductive Call : Type :=
| NewLinkUpSearchTool   (* BaseTool.__init__ *)
| NewLLM                (* LLM(...) *)
| NewAgent              (* Agent(...) *)
| NewTask               (* Task(...) *)
| NewCrew               (* Crew(...) *)
| NewLinkupClient       (* LinkupClient(...) *)
| GetRaw.               (* result.raw *)

Record Services : Type := {
  (* does this library call fail now, and with which exception *)
  fault : State -> Call -> option exn;
  (* LinkupClient.search *)
  linkup_search :
    State -> LinkupClient -> string -> string -> string ->
    outcome SearchResponse;
  (* the agent loop of the language model on one task with its context *)
  llm_plan : State -> Task -> string -> AgentProg;
  (* the observation an agent gets for a tool it does not have *)
  tool_missing : string -> string;
  (* Crew.kickoff under Process.hierarchical, which this program never uses *)
  hierarchical_kickoff : State -> Crew -> outcome CrewOutput * State
}.

(** ** The literals of [agents.py] *)

(** The line feed of Python's ["\n"]. *)
Definition nl : string := String (Ascii.ascii_of_nat 10) EmptyString.

(* agents.py, lines 125-127 *)
Definition web_searcher_goal : string :=
  "Locate the most authoritative, up-to-date, and relevant " +:+
  "information on the web to comprehensively address the research " +:+
  "query. " +:+
  "Ensure all findings are accompanied by accurate source links " +:+
  "(urls) suitable for citation in a formal research report. " +:+
  "Gather data, facts, and potential visuals (charts, diagrams, " +:+
  "images) that could support the report's sections: Executive " +:+
  "Summary, Key Findings, Visuals, Conclusion, and References.".

(* agents.py, lines 130-132 *)
Definition web_searcher_backstory : string :=
  "A specialist in advanced web research, skilled at constructing " +:+
  "precise queries and evaluating the credibility of sources. " +:+
  "Responsible for assembling a robust set of resources and raw " +:+
  "findings, with clear citations, to enable deep analysis and " +:+
  "structured reporting. " +:+
  "Passes all findings to the 'Research Analyst' for synthesis.".

(* agents.py, lines 144-144 *)
Definition research_analyst_goal : string :=
  "Output two sections in markdown format:" +:+
  nl +:+
  nl +:+
  "## Research Report" +:+
  nl +:+
  "Prepare structured notes for each section of the Research Report: " +:+
  "Executive Summary, Key Findings, Visuals, Conclusion, and " +:+
  "References." +:+
  nl +:+
  nl +:+
  "## Thinking Process Summary" +:+
  nl +:+
  "For each key finding or section, explicitly explain which sources " +:+
  "([n]) contributed to each conclusion and how the information was " +:+
  "combined, contrasted, or selected. Provide reasoning for each " +:+
  "major point, mapping citations to synthesis decisions, and avoid " +:+
  "general statements. This output will be passed to the " +:+
  "technical_writer for final presentation.".

(* agents.py, lines 147-149 *)
Definition research_analyst_backstory : string :=
  "An expert at critical analysis, fact-checking, and synthesis. " +:+
  "Skilled in transforming unstructured data into actionable " +:+
  "insights and structured outlines. " +:+
  "Responsible for ensuring the accuracy and depth of findings, and " +:+
  "for organizing content to facilitate clear, impactful reporting. " +:+
  "Passes an organized, section-ready synthesis to the 'Technical " +:+
  "Writer'.".

(* agents.py, lines 160-176 *)
Definition technical_writer_goal : string :=
  "Produce two outputs, each clearly separated by markdown headers, " +:+
  "with the Research Report first and the Thinking Process Summary " +:+
  "second:" +:+
  nl +:+
  nl +:+
  "## (1) Research Report" +:+
  nl +:+
  "A well-structured Research Report in markdown format, with clear " +:+
  "section headers and citations/source links (urls). The report " +:+
  "must include the following sections: " +:+
  "1. Executive Summary (required): Brief overview of the research " +:+
  "objective and outcome." +:+
  nl +:+
  "2. Key Findings (optional): Concise insights with citations, " +:+
  "formatted as numbered references (e.g., [1], [2], etc.), matching " +:+
  "the numbers in the References section. Each citation should use a " +:+
  "number that corresponds to a source in the References section." +:+
  nl +:+
  "3. Visuals (optional): Only include this section if an actual " +:+
  "visualization (such as an image, chart, diagram, or table) is " +:+
  "generated and can be shown in the report. Do NOT include this " +:+
  "section if only suggestions, descriptions, or hypothetical " +:+
  "visuals are available. If no real visualization is produced, omit " +:+
  "the Visuals section entirely." +:+
  nl +:+
  "4. Conclusion (required): Summary of key takeaways and suggested " +:+
  "next steps." +:+
  nl +:+
  "5. References (required): A numbered list of all sources cited in " +:+
  "the report. The numbering must correspond to the citation numbers " +:+
  "used in the Key Findings section. Do NOT include 'Accessed " +:+
  "[Current Date]' or any placeholder access date in the references; " +:+
  "only include the source title, website, and URL." +:+
  nl +:+
  "Ensure each section is clearly labeled and written in a " +:+
  "professional, accessible style." +:+
  nl +:+
  nl +:+
  "## (2) Thinking Process Summary" +:+
  nl +:+
  "Present the detailed Thinking Process Summary provided by the " +:+
  "research_analyst, which for each key finding or section, " +:+
  "explicitly explains which sources ([n]) contributed to each " +:+
  "conclusion and how the information was combined, contrasted, or " +:+
  "selected. The summary should provide reasoning for each major " +:+
  "point, mapping citations to synthesis decisions, and avoid " +:+
  "general statements. The technical_writer should not invent or " +:+
  "reinterpret the reasoning, but simply present both outputs " +:+
  "clearly and professionally." +:+
  nl +:+
  "1. Executive Summary (required): Brief overview of the research " +:+
  "objective and outcome." +:+
  nl +:+
  "2. Key Findings (optional): Concise insights with citations, " +:+
  "formatted as numbered references (e.g., [1], [2], etc.), matching " +:+
  "the numbers in the References section. Each citation should use a " +:+
  "number that corresponds to a source in the References section." +:+
  nl +:+
  "3. Visuals (optional): Only include this section if an actual " +:+
  "visualization (such as an image, chart, diagram, or table) is " +:+
  "generated and can be shown in the report. Do NOT include this " +:+
  "section if only suggestions, descriptions, or hypothetical " +:+
  "visuals are available. If no real visualization is produced, omit " +:+
  "the Visuals section entirely." +:+
  nl +:+
  "4. Conclusion (required): Summary of key takeaways and suggested " +:+
  "next steps." +:+
  nl +:+
  "5. References (required): A numbered list of all sources cited in " +:+
  "the report. The numbering must correspond to the citation numbers " +:+
  "used in the Key Findings section. Do NOT include 'Accessed " +:+
  "[Current Date]' or any placeholder access date in the references; " +:+
  "only include the source title, website, and URL." +:+
  nl +:+
  "Ensure each section is clearly labeled and written in a " +:+
  "professional, accessible style." +:+
  nl.

(* agents.py, lines 180-181 *)
Definition technical_writer_backstory : string :=
  "An expert at structuring and communicating complex research in a " +:+
  "clear, engaging, and accessible way. " +:+
  "Responsible for transforming the analyst's synthesis into a " +:+
  "polished, comprehensive Research Report, with careful attention " +:+
  "to structure, clarity, and citation.".

(* agents.py, lines 191-193 *)
Definition search_task_description (query : string) : string :=
  "Conduct an exhaustive web search for authoritative, up-to-date " +:+
  "information about: " +:+
  query +:+
  ". " +:+
  "Collect facts, data, and potential visuals (charts, diagrams, " +:+
  "images) relevant to the research query. " +:+
  "Ensure all findings are accompanied by accurate source links " +:+
  "(urls) suitable for citation in a formal research report.".

(* agents.py, lines 196-196 *)
Definition search_task_expected_output : string :=
  "Comprehensive raw search results, including sources (urls) and " +:+
  "any relevant visuals.".

(* agents.py, lines 202-204 *)
Definition analysis_task_description : string :=
  "Analyze the raw search results, extract key findings, and verify " +:+
  "facts. " +:+
  "Organize insights, suggest visuals, and compile a list of " +:+
  "references. " +:+
  "Prepare structured notes for each section of the Research Report: " +:+
  "Executive Summary, Key Findings, Visuals, Conclusion, and " +:+
  "References.".

(* agents.py, lines 207-207 *)
Definition analysis_task_expected_output : string :=
  "A section-ready synthesis with key findings, suggested visuals, " +:+
  "and a comprehensive reference list, all with citations.".

(* agents.py, lines 213-220 *)
Definition writing_task_description : string :=
  "Write a well-structured Research Report in markdown format, based " +:+
  "on the research analysis. " +:+
  "The report must include the following sections: " +:+
  "- Executive Summary (required): Brief overview of the research " +:+
  "objective and outcome." +:+
  nl +:+
  "- Key Findings (optional): Concise insights with citations if " +:+
  "applicable." +:+
  nl +:+
  "- Visuals (optional): Charts, diagrams, or images that support " +:+
  "the findings." +:+
  nl +:+
  "- Conclusion (required): Summary of key takeaways and suggested " +:+
  "next steps." +:+
  nl +:+
  "- References (required): List of sources used in the research." +:+
  nl +:+
  "Ensure each section is clearly labeled and the writing is " +:+
  "professional, clear, and accessible.".

(* agents.py, lines 223-223 *)
Definition writing_task_expected_output : string :=
  "A markdown-formatted Research Report with all required sections, " +:+
  "clear structure, and citations/source links (urls).".

(** ** [agents.py] *)

Section Agents.

Context (sv : Services).

(** A call into a third-party package: it returns, or raises what the
    package raises. *)
Definition lib_call (c : Call) : M unit :=
  fun st =>
    match fault sv st c with
    | Some e => (Raise e, st)
    | None => (Ok tt, st)
    end.

(** [get_llm_client()] *)
Definition get_llm_client : M LLM :=
  let! key := getenv "GEMINI_API_KEY" in
  let! _ := lib_call NewLLM in
  ret {| model := "gemini/gemini-2.5-flash";
         llm_verbose := true;
         temperature := 0;
         api_key := key |}.

(** [LinkUpSearchTool()] *)
Definition LinkUpSearchTool : M Tool :=
  let! _ := lib_call NewLinkUpSearchTool in
  ret {| name := "LinkUp Search";
         tool_description :=
           "Search the web for information using LinkUp and return " +:+
           "comprehensive results" |}.

(** [LinkupClient(api_key=...)] *)
Definition new_LinkupClient (key : option string) : M LinkupClient :=
  let! _ := lib_call NewLinkupClient in
  ret {| client_api_key := key |}.

(** [linkup_client.search(query=..., depth=..., output_type=...)] *)
Definition search (linkup_client : LinkupClient)
    (query depth output_type : string) : M SearchResponse :=
  fun st =>
    (linkup_search sv st linkup_client query depth output_type,
     add_event (EvSearch query depth output_type) st).

(** The [try] block of [LinkUpSearchTool._run]. *)
Definition _run_body (query depth output_type : string) : M string :=
  let! key := getenv "LINKUP_API_KEY" in
  let! linkup_client := new_LinkupClient key in
  let! search_response := search linkup_client query depth output_type in
  ret (str_response search_response).

(** [LinkUpSearchTool._run(self, query, depth="standard",
    output_type="searchResults")]; an argument left out is [None] here. *)
Definition _run (self : Tool) (query : string)
    (depth output_type : option string) : M string :=
  let depth := default "standard" depth in
  let output_type := default "searchResults" output_type in
  try_except
    (_run_body query depth output_type)
    (fun e => ret ("Error occurred while searching: " +:+ str_exn e)).

(** [Agent(...)] *)
Definition new_Agent (a : Agent) : M Agent :=
  let! _ := lib_call NewAgent in
  ret a.

(** [Task(...)]: the new object is put in the store and its address is
    returned. *)
Definition new_Task (t : Task) : M TaskRef :=
  let! _ := lib_call NewTask in
  fun st => (Ok (length (heap st)), set_heap (heap st ++ [t]) st).

(** [Crew(...)] *)
Definition new_Crew (c : Crew) : M Crew :=
  let! _ := lib_call NewCrew in
  ret c.

(** [create_research_crew(query)] *)
Definition create_research_crew (query : string) : M Crew :=
  let! linkup_search_tool := LinkUpSearchTool in
  let! client := get_llm_client in
  let! web_searcher :=
    new_Agent {| role := "Web Searcher";
                 goal := web_searcher_goal;
                 backstory := web_searcher_backstory;
                 verbose := true;
                 allow_delegation := true;
                 tools := [linkup_search_tool];
                 llm := client |} in
  let! research_analyst :=
    new_Agent {| role := "Research Analyst";
                 goal := research_analyst_goal;
                 backstory := research_analyst_backstory;
                 verbose := true;
                 allow_delegation := true;
                 tools := [];
                 llm := client |} in
  let! technical_writer :=
    new_Agent {| role := "Technical Writer";
                 goal := technical_writer_goal;
                 backstory := technical_writer_backstory;
                 verbose := true;
                 allow_delegation := false;
                 tools := [];
                 llm := client |} in
  let! search_task :=
    new_Task {| description := search_task_description query;
                agent := web_searcher;
                expected_output := search_task_expected_output;
                task_tools := [linkup_search_tool];
                context := None;
                output := None |} in
  let! analysis_task :=
    new_Task {| description := analysis_task_description;
                agent := research_analyst;
                expected_output := analysis_task_expected_output;
                task_tools := [];
                context := Some [search_task];
                output := None |} in
  let! writing_task :=
    new_Task {| description := writing_task_description;
                agent := technical_writer;
                expected_output := writing_task_expected_output;
                task_tools := [];
                context := Some [analysis_task];
                output := None |} in
  let! crew :=
    new_Crew {| agents := [web_searcher; research_analyst; technical_writer];
                tasks := [search_task; analysis_task; writing_task];
                crew_verbose := true;
                process := sequential |} in
  ret crew.

(** *** The orchestration package

    [Crew.kickoff] is code of the crewAI package and is not among the
    sources.  The definitions from [divider] to [kickoff] give its contract
    under [Process.sequential] as the specification words it (4.3): the
    tasks run strictly one after the other in the order of [tasks]; a task
    is handed the raw outputs of the tasks named in its [context] (of all
    earlier tasks when it names none); the agent of the task may call its
    tools; the output is stored on the task; the crew's output is the raw
    output of the final task. *)

Definition divider : string :=
  nl +:+ nl +:+ "----------" +:+ nl +:+ nl.

Definition aggregate_raw_outputs (outs : list string) : string :=
  String.concat divider outs.

Definition deref (t : TaskRef) : M Task :=
  fun st =>
    match heap st !! t with
    | Some obj => (Ok obj, st)
    | None => (Raise (Exception "no such task"), st)
    end.

Definition with_output (out : string) (obj : Task) : Task :=
  {| description := description obj; agent := agent obj;
     expected_output := expected_output obj; task_tools := task_tools obj;
     context := context obj; output := Some out |}.

Definition set_output (t : TaskRef) (out : string) : M unit :=
  fun st => (Ok tt, set_heap (alter (with_output out) t (heap st)) st).

(** The context a task is handed, given the store and the outputs of the
    tasks that ran before it. *)
Definition context_text (h : list Task) (obj : Task)
    (task_outputs : list string) : string :=
  match context obj with
  | None => aggregate_raw_outputs task_outputs
  | Some refs =>
      aggregate_raw_outputs (omap (fun r => h !! r ≫= output) refs)
  end.

Definition get_context (obj : Task) (task_outputs : list string) : M string :=
  fun st => (Ok (context_text (heap st) obj task_outputs), st).

Definition find_tool (tool_name : string) (ts : list Tool) : option Tool :=
  List.find (fun t => String.eqb (name t) tool_name) ts.

(** The tools a task runs with: its own, else those of its agent. *)
Definition tools_for (obj : Task) : list Tool :=
  match task_tools obj with
  | [] => tools (agent obj)
  | ts => ts
  end.

(** Modelled from the spec: the agent loop of crewAI is missing.  An agent
    "may issue another call" after a tool's string (4.1); a tool it names
    is run through [_run], and what the model finally answers, or the
    exception it ends with, is the outcome of the task. *)
Fixpoint run_agent (ts : list Tool) (p : AgentProg) : M string :=
  match p with
  | Final r => fun st => (r, st)
  | CallTool tool_name query depth output_type k =>
      match find_tool tool_name ts with
      | Some self =>
          let! observation := _run self query depth output_type in
          run_agent ts (k observation)
      | None => run_agent ts (k (tool_missing sv tool_name))
      end
  end.

(** Modelled from the spec: task execution of crewAI is missing.  "Each
    state transition passes the completed task's raw output forward as
    additional context available to the next task's agent" (4.3). *)
Definition execute_task (t : TaskRef) (task_outputs : list string) : M string :=
  let! obj := deref t in
  let! ctx := get_context obj task_outputs in
  let! _ := emit (EvTaskStart t ctx) in
  let! st := get_state in
  let! out := run_agent (tools_for obj) (llm_plan sv st obj ctx) in
  let! _ := set_output t out in
  let! _ := emit (EvTaskEnd t out) in
  ret out.

(** Modelled from the spec: the task loop of crewAI is missing.  "Executed
    strictly in order [...] no backward transition, no
    retry-at-task-granularity, and no parallel task execution"; "if any
    step's execution raises [...] it surfaces as a single top-level
    failure" (4.3). *)
Fixpoint _execute_tasks (ts : list TaskRef) (task_outputs : list string)
    : M (list string) :=
  match ts with
  | [] => ret task_outputs
  | t :: rest =>
      let! out := execute_task t task_outputs in
      _execute_tasks rest (task_outputs ++ [out])
  end.

(** Modelled from the spec: [Crew.kickoff] of crewAI is missing.  "Output:
    the final task's raw text output" (4.3). *)
Definition kickoff (crew : Crew) : M CrewOutput :=
  match process crew with
  | sequential =>
      let! task_outputs := _execute_tasks (tasks crew) [] in
      match last task_outputs with
      | Some final => ret {| raw := final; tasks_output := task_outputs |}
      | None => raise (Exception "No task outputs available")
      end
  | hierarchical => fun st => hierarchical_kickoff sv st crew
  end.

(** [result.raw] *)
Definition get_raw (result : CrewOutput) : M string :=
  let! _ := lib_call GetRaw in
  ret (raw result).

(** *** The query service *)

(** The [try] block of [run_research]. *)
Definition run_research_body (query : string) : M string :=
  let! crew := create_research_crew query in
  let! result := kickoff crew in
  get_raw result.

(** [run_research(query)] *)
Definition run_research (query : string) : M string :=
  try_except
    (run_research_body query)
    (fun e => ret ("Error: " +:+ str_exn e)).

(** What importing [agents] runs. *)
Definition import_agents : M unit := load_dotenv.

End Agents.

(** ** [api.py] *)

Record QueryRequest : Type := { input : string }.

(** [result] is declared [Any]; the handler only ever stores the string
    [run_research] returned. *)
Record QueryResponse : Type := { result : string }.

Record StatusResponse : Type := { status_value : string }.

Section Api.

Context (sv : Services).

(** [query_endpoint(request)] *)
Definition query_endpoint (request : QueryRequest) : M QueryResponse :=
  try_except
    (let! result := run_research sv (input request) in
     ret {| result := result |})
    (fun e =>
       raise (HTTPException 500
                ("Internal server error: " +:+ str_exn e))).

(** [status()] *)
Definition status : M StatusResponse :=
  ret {| status_value := "ok" |}.

End Api.

(** *** The web framework

    FastAPI, not this repository, turns what a route function does into an
    HTTP response. *)

Inductive Body : Type :=
| JsonObject (fields : list (string * string))
| PlainText (text : string).

Record Response : Type := {
  http_status : Z;
  body : Body
}.

Definition QueryResponse_json (r : QueryResponse) : Body :=
  JsonObject [("result", result r)].

Definition StatusResponse_json (r : StatusResponse) : Body :=
  JsonObject [("status", status_value r)].

(** Modelled from the spec: the request handling of FastAPI is missing.
    A returned model is sent as JSON with status 200; an [HTTPException]
    is sent with its own status code and the body [{"detail": ...}] (6);
    any other exception is answered with status 500. *)
Definition serve {A} (to_json : A -> Body) (route : M A)
    : State -> Response * State :=
  fun st =>
    match route st with
    | (Ok a, st') => ({| http_status := 200; body := to_json a |}, st')
    | (Raise (HTTPException status_code detail), st') =>
        ({| http_status := status_code;
            body := JsonObject [("detail", detail)] |}, st')
    | (Raise (Exception _), st') =>
        ({| http_status := 500;
            body := PlainText "Internal Server Error" |}, st')
    end.

(** [POST /query] *)
Definition post_query (sv : Services) (request : QueryRequest)
    : State -> Response * State :=
  serve QueryResponse_json (query_endpoint sv request).

(** [GET /status] *)
Definition get_status : State -> Response * State :=
  serve StatusResponse_json status.

(** ** Reading the event log *)

(** The events a computation added to the log. *)
Definition new_events (st st' : State) : list Event :=
  drop (length (log st)) (log st').

Definition is_task_event (e : Event) : bool :=
  match e with
  | EvTaskStart _ _ | EvTaskEnd _ _ => true
  | _ => false
  end.

(** The task starts and ends among some events, in order. *)
Definition task_events (evs : list Event) : list Event :=
  List.filter is_task_event evs.

(** The keys looked up in the environment, in order. *)
Fixpoint env_reads (evs : list Event) : list string :=
  match evs with
  | [] => []
  | EvGetenv key :: rest => key :: env_reads rest
  | _ :: rest => env_reads rest
  end.

(** What a tool invocation may add to the log: a lookup of the provider's
    key and a search. *)
Definition is_tool_event (e : Event) : bool :=
  match e with
  | EvGetenv key => String.eqb key "LINKUP_API_KEY"
  | EvSearch _ _ _ => true
  | _ => false
  end.

(** The task events of a complete run of three tasks stored at [n], [n+1]
    and [n+2] with outputs [o1], [o2] and [o3]: each task starts with the
    output of the one before as its context. *)
Definition chain (n : TaskRef) (o1 o2 o3 : string) : list Event :=
  [EvTaskStart n EmptyString; EvTaskEnd n o1;
   EvTaskStart (n + 1) o1; EvTaskEnd (n + 1) o2;
   EvTaskStart (n + 2) o2; EvTaskEnd (n + 2) o3].

(** ** Citations of a report, as the specification words them

    The code has no notion of a citation.  These definitions follow the
    specification: a citation index is a bracketed numeral [[n]] in the
    report text before the References heading; the entries of the
    References section are the numbered lines after that heading. *)

Definition is_digit (a : Ascii.ascii) : bool :=
  (48 <=? Ascii.nat_of_ascii a)%nat && (Ascii.nat_of_ascii a <=? 57)%nat.

Definition digit_value (a : Ascii.ascii) : nat := Ascii.nat_of_ascii a - 48.

Inductive scan : Type := Outside | Opened | Numeral (n : nat).

Fixpoint bracketed_numerals (sc : scan) (s : string) : list nat :=
  match s with
  | EmptyString => []
  | String a rest =>
      if Ascii.eqb a (Ascii.ascii_of_nat 91) then (* [ *) bracketed_numerals Opened rest
      else if is_digit a then
        match sc with
        | Outside => bracketed_numerals Outside rest
        | Opened => bracketed_numerals (Numeral (digit_value a)) rest
        | Numeral n =>
            bracketed_numerals (Numeral (10 * n + digit_value a)) rest
        end
      else if Ascii.eqb a (Ascii.ascii_of_nat 93) then (* ] *)
        match sc with
        | Numeral n => n :: bracketed_numerals Outside rest
        | _ => bracketed_numerals Outside rest
        end
      else bracketed_numerals Outside rest
  end.

Fixpoint split_lines (s : string) : list string :=
  match s with
  | EmptyString => [EmptyString]
  | String a rest =>
      if Ascii.eqb a (Ascii.ascii_of_nat 10) then EmptyString :: split_lines rest
      else
        match split_lines rest with
        | line :: others => String a line :: others
        | [] => [String a EmptyString]
        end
  end.

Fixpoint contains (needle s : string) : bool :=
  String.prefix needle s ||
  match s with
  | EmptyString => false
  | String _ rest => contains needle rest
  end.

(** The lines before the References heading, and the lines after it. *)
Fixpoint split_at_references (ls : list string) : list string * list string :=
  match ls with
  | [] => ([], [])
  | l :: rest =>
      if contains "References" l then ([], rest)
      else let (before, after) := split_at_references rest in
           (l :: before, after)
  end.

Definition starts_with_digit (l : string) : bool :=
  match l with
  | String a _ => is_digit a
  | EmptyString => false
  end.

Definition citation_indices (report : string) : list nat :=
  flat_map (bracketed_numerals Outside)
           (fst (split_at_references (split_lines report))).

Definition reference_entries (report : string) : nat :=
  length (List.filter starts_with_digit
                      (snd (split_at_references (split_lines report)))).

(** No dangling citation number: every index is one of 1..N. *)
Definition citations_resolve (report : string) : bool :=
  forallb (fun n => (1 <=? n)%nat && (n <=? reference_entries report)%nat)
          (citation_indices report).

(** ** Sample worlds

    Concrete environments, providers and model behaviours on which the
    definitions above are run. *)

Definition sample_environ : gmap string string :=
  <["GEMINI_API_KEY" := "g-key"]> (<["LINKUP_API_KEY" := "l-key"]> ∅).

Definition st0 : State :=
  {| environ := sample_environ; dotenv_file := ∅; heap := []; log := [] |}.

Definition no_fault : State -> Call -> option exn := fun _ _ => None.

(** The tool object [LinkUpSearchTool()] makes. *)
Definition sample_tool : Tool :=
  {| name := "LinkUp Search";
     tool_description :=
       "Search the web for information using LinkUp and return " +:+
       "comprehensive results" |}.

Definition provider_up
    : State -> LinkupClient -> string -> string -> string ->
      outcome SearchResponse :=
  fun _ _ query _ _ => Ok {| response_text := "results=[" +:+ query +:+ "]" |}.

Definition provider_down
    : State -> LinkupClient -> string -> string -> string ->
      outcome SearchResponse :=
  fun _ _ _ _ _ => Raise (Exception "connection refused").

(** A provider whose answer prints like the report of a failure. *)
Definition provider_mimic
    : State -> LinkupClient -> string -> string -> string ->
      outcome SearchResponse :=
  fun _ _ _ _ _ =>
    Ok {| response_text :=
            "Error occurred while searching: connection refused" |}.

(** The searcher calls the search tool once and reports what it saw, the
    analyst annotates its context, the writer answers [writer]. *)
Definition scripted_plan (writer : outcome string)
    : State -> Task -> string -> AgentProg :=
  fun _ t ctx =>
    if String.eqb (role (agent t)) "Web Searcher" then
      CallTool "LinkUp Search" "solid-state batteries" None None
               (fun observation => Final (Ok ("found: " +:+ observation)))
    else if String.eqb (role (agent t)) "Research Analyst" then
      Final (Ok ("notes: " +:+ ctx))
    else Final writer.

Definition sample_services
    (provider : State -> LinkupClient -> string -> string -> string ->
                outcome SearchResponse)
    (writer : outcome string) : Services :=
  {| fault := no_fault;
     linkup_search := provider;
     llm_plan := scripted_plan writer;
     tool_missing := fun tool_name => "no such tool: " +:+ tool_name;
     hierarchical_kickoff :=
       fun st _ => (Raise (Exception "no manager"), st) |}.

(** One reference, and a finding that cites a second one. *)
Definition dangling_report : string :=
  "## Research Report" +:+ nl +:+
  "### Executive Summary" +:+ nl +:+
  "Solid-state cells are close to production." +:+ nl +:+
  "### Key Findings" +:+ nl +:+
  "Energy density doubled [1]. Cost fell by a third [2]." +:+ nl +:+
  "### Conclusion" +:+ nl +:+
  "Promising." +:+ nl +:+
  "### References" +:+ nl +:+
  "1. Battery Review, example.org, https://example.org/review".

(** The same report with both sources listed. *)
Definition sound_report : string :=
  dangling_report +:+ nl +:+
  "2. Cost Study, example.org, https://example.org/cost".

(** ** What a computation leaves behind *)

(** [m] leaves the environment alone and adds to the log only events that
    satisfy [p]. *)
Definition emits {A} (p : Event -> bool) (m : M A) : Prop :=
  forall st,
    environ (m st).2 = environ st /\
    dotenv_file (m st).2 = dotenv_file st /\
    exists evs, log (m st).2 = log st ++ evs /\ forallb p evs = true.

Definition no_event (e : Event) : bool := false.

(** Events of one query: task boundaries and tool invocations. *)
Definition is_run_event (e : Event) : bool :=
  is_task_event e || is_tool_event e.

(** The context graph of three tasks stored at [n], [n+1] and [n+2] is
    the chain: the first names no task, the second names the first, the
    third names the second. *)
Definition chained (n : TaskRef) (t1 t2 t3 : Task) : Prop :=
  context t1 = None /\ context t2 = Some [n] /\ context t3 = Some [n + 1].

(** How often [key] was looked up in the environment. *)
Definition reads_of (key : string) (evs : list Event) : nat :=
  length (List.filter (String.eqb key) (env_reads evs)).

(** [m] leaves the first [n] objects of the store as they are. *)
Definition keeps_below {A} (n : nat) (m : M A) : Prop :=
  forall st,
    n <= length (heap st) ->
    take n (heap (m st).2) = take n (heap st) /\
    n <= length (heap (m st).2).

#[global] Instance Call_eq_dec : EqDecision Call.
Proof. solve_decision. Defined.

(** The library call [c] fails with [e]; every other call succeeds. *)
Definition fault_at (c : Call) (e : exn) : State -> Call -> option exn :=
  fun _ c' => if decide (c = c') then Some e else None.

(** A world in which the library call [c] fails with [e]. *)
Definition faulty_services (c : Call) (e : exn) : Services :=
  {| fault := fault_at c e;
     linkup_search := provider_up;
     llm_plan := scripted_plan (Ok sound_report);
     tool_missing := fun tool_name => "no such tool: " +:+ tool_name;
     hierarchical_kickoff :=
       fun st _ => (Raise (Exception "no manager"), st) |}.

(** ** [app.py]: talking to the backend *)

(** Values of Python as JSON yields them.  A dict is the list of its
    items; its keys are distinct.  A float is kept by its [repr] and by
    whether it equals zero, which is all the code can see of it. *)
#[warnings="-register-all"]
Inductive PyVal : Type :=
| PyNone
| PyBool (b : bool)
| PyInt (z : Z)
| PyFloat (is_zero : bool) (repr : string)
| PyStr (s : string)
| PyList (elements : list PyVal)
| PyDict (items : list (string * PyVal)).

(** [bool(v)] *)
Definition truthy (v : PyVal) : bool :=
  match v with
  | PyNone => false
  | PyBool b => b
  | PyInt z => negb (z =? 0)%Z
  | PyFloat is_zero _ => negb is_zero
  | PyStr s => negb (String.eqb s EmptyString)
  | PyList elements => negb (forallb (fun _ => false) elements)
  | PyDict items => negb (forallb (fun _ => false) items)
  end.

(** [type(v).__name__] *)
Definition type_name (v : PyVal) : string :=
  match v with
  | PyNone => "NoneType"
  | PyBool _ => "bool"
  | PyInt _ => "int"
  | PyFloat _ _ => "float"
  | PyStr _ => "str"
  | PyList _ => "list"
  | PyDict _ => "dict"
  end.

Fixpoint items_lookup (key : string) (items : list (string * PyVal))
    : option PyVal :=
  match items with
  | [] => None
  | (k, v) :: rest => if String.eqb k key then Some v else items_lookup key rest
  end.

(** [obj.get(key, default)]: only a dict has the method. *)
Definition py_get (obj : PyVal) (key : string) (dflt : PyVal)
    : outcome PyVal :=
  match obj with
  | PyDict items => Ok (default dflt (items_lookup key items))
  | _ =>
      Raise (Exception ("'" +:+ type_name obj +:+
                        "' object has no attribute 'get'"))
  end.

Definition outcome_bind {A B} (m : outcome A) (f : A -> outcome B)
    : outcome B :=
  match m with
  | Ok a => f a
  | Raise e => Raise e
  end.

Notation "'let?' x ':=' m 'in' k" := (outcome_bind m (fun x => k))
  (at level 10, x binder, m at level 100, k at level 200,
   format "'[v' 'let?'  x  ':='  m  'in' '/' k ']'").

Definition quote_char : Ascii.ascii := Ascii.ascii_of_nat 34.
Definition open_brace : Ascii.ascii := Ascii.ascii_of_nat 123.
Definition close_brace : Ascii.ascii := Ascii.ascii_of_nat 125.
Definition line_feed : Ascii.ascii := Ascii.ascii_of_nat 10.

(** The characters up to the next line feed: what [.*] can run over. *)
Fixpoint line_rest (s : string) : string :=
  match s with
  | EmptyString => EmptyString
  | String a rest =>
      if Ascii.eqb a line_feed then EmptyString else String a (line_rest rest)
  end.

(** The longest initial part of [s] that ends with a closing brace. *)
Fixpoint upto_last_brace (s : string) : option string :=
  match s with
  | EmptyString => None
  | String a rest =>
      match upto_last_brace rest with
      | Some p => Some (String a p)
      | None =>
          if Ascii.eqb a close_brace then Some (String a EmptyString)
          else None
      end
  end.

(** [re.search(r'\{.*\}', s)], by [match.group(0)]: the leftmost opening
    brace that has a closing brace after it on its line, up to the last
    closing brace of that line. *)
Fixpoint re_search_braces (s : string) : option string :=
  match s with
  | EmptyString => None
  | String a rest =>
      if Ascii.eqb a open_brace then
        match upto_last_brace (line_rest rest) with
        | Some p => Some (String a p)
        | None => re_search_braces rest
        end
      else re_search_braces rest
  end.

(** Where the scan for a quoted part stands: outside, or after an opening
    quote with the characters read since. *)
Inductive quoting : Type := QOut | QIn (acc : string).

(** [re.findall] with the pattern of the source (a double quote, one or
    more characters other than a double quote, a double quote), scanning
    from state [q]; the results are the parts between the quotes. *)
Fixpoint findall_quoted (q : quoting) (s : string) : list string :=
  match s with
  | EmptyString => []
  | String a rest =>
      if Ascii.eqb a quote_char then
        match q with
        | QOut => findall_quoted (QIn EmptyString) rest
        | QIn EmptyString => findall_quoted (QIn EmptyString) rest
        | QIn acc => acc :: findall_quoted QOut rest
        end
      else
        match q with
        | QOut => findall_quoted QOut rest
        | QIn acc => findall_quoted (QIn (acc +:+ String a EmptyString)) rest
        end
  end.

(** What [requests.post] hands back, by the two methods the code calls. *)
Record HttpReply : Type := {
  raise_for_status : option exn;  (* the HTTPError it raises, if any *)
  json : outcome PyVal            (* resp.json() *)
}.

(** The network and the JSON parser. *)
Record Web : Type := {
  (* requests.post(url, json={"input": user_content}) *)
  requests_post : string -> string -> outcome HttpReply;
  (* json.loads *)
  json_loads : string -> outcome PyVal
}.

Section App.

Context (web : Web).

(** [API_URL], fixed when the module is loaded. *)
Context (API_URL : string).

(** The [try] block of [call_research_api]. *)
Definition call_research_api_body (user_content : string) : outcome PyVal :=
  let? resp := requests_post web API_URL user_content in
  let? _ := match raise_for_status resp with
            | Some e => Raise e
            | None => Ok tt
            end in
  let? response_json := json resp in
  py_get response_json "result" (PyStr "No result returned from API.").

(** [user_message] after the inner [try] of the handler. *)
Definition message_from_json (error_message : string) : PyVal :=
  match re_search_braces error_message with
  | Some group0 =>
      match (let? error_json := json_loads web group0 in
             let? error := py_get error_json "error" (PyDict []) in
             py_get error "message" PyNone) with
      | Ok user_message => user_message
      | Raise _ => PyNone
      end
  | None => PyNone
  end.

(** The handler of [call_research_api]. *)
Definition user_message_of (error_message : string) : PyVal :=
  let user_message := message_from_json error_message in
  let user_message :=
    if truthy user_message then user_message
    else
      match last (findall_quoted QOut error_message) with
      | Some quoted_last => PyStr quoted_last
      | None => user_message
      end in
  if truthy user_message then user_message
  else PyStr ("An error occurred while contacting backend API. " +:+
              "Please try again later.").

(** [call_research_api(user_content)] *)
Definition call_research_api (user_content : string) : outcome PyVal :=
  match call_research_api_body user_content with
  | Ok response => Ok response
  | Raise e => Ok (user_message_of (str_exn e))
  end.

End App.

(** ** [app.py]: laying the report out

    A string is read as the sequence of its characters, each a code point
    below 256. *)

(** [ch.isspace()] *)
Definition is_space (a : Ascii.ascii) : bool :=
  let n := Ascii.nat_of_ascii a in
  ((9 <=? n)%nat && (n <=? 13)%nat) ||
  ((28 <=? n)%nat && (n <=? 32)%nat) ||
  (n =? 133)%nat || (n =? 160)%nat.

Definition cons_word (w : string) (ws : list string) : list string :=
  match w with
  | EmptyString => ws
  | _ => w :: ws
  end.

(** The word that starts at the head of [s] (empty when [s] starts with
    white space) and the words after it. *)
Fixpoint scan_words (s : string) : string * list string :=
  match s with
  | EmptyString => (EmptyString, [])
  | String a rest =>
      let (w, ws) := scan_words rest in
      if is_space a then (EmptyString, cons_word w ws)
      else (String a w, ws)
  end.

(** [s.split()] *)
Definition split_ws (s : string) : list string :=
  let (w, ws) := scan_words s in cons_word w ws.

(** What the code asks of reportlab and of float arithmetic: vertical
    positions, and the two comparisons of floats that steer the layout. *)
Record Canvas : Type := {
  ypos : Type;
  top_margin : ypos;            (* height - 50 *)
  line_down : ypos -> ypos;     (* y - line_height *)
  at_bottom : ypos -> bool;     (* y <= bottom_margin *)
  (* c.stringWidth(s, font_name, font_size) <= max_width *)
  fits : string -> bool
}.

(** The canvas while the text is laid out: the pages shown so far, the
    lines of the text object in the making, and the height [y]. *)
Record Layout (cv : Canvas) : Type := {
  pages : list (list string);
  textobject : list string;
  y : ypos cv
}.
Arguments pages {cv} _.
Arguments textobject {cv} _.
Arguments y {cv} _.

Section Pdf.

Context (cv : Canvas).

(** The block the source repeats before every [textLine]: at the bottom
    the text object is drawn, the page is shown and a new text object is
    begun at the top; then the line is added and [y] goes down. *)
Definition text_line (line : string) (l : Layout cv) : Layout cv :=
  let l' :=
    if at_bottom cv (y l) then
      {| pages := pages l ++ [textobject l];
         textobject := [];
         y := top_margin cv |}
    else l in
  {| pages := pages l';
     textobject := textobject l' ++ [line];
     y := line_down cv (y l') |}.

(** [for word in words: ...] *)
Fixpoint wrap_words (words : list string) (current_line : string)
    (l : Layout cv) : string * Layout cv :=
  match words with
  | [] => (current_line, l)
  | word :: rest =>
      let test_line :=
        current_line +:+
        (if String.eqb current_line EmptyString then EmptyString else " ")
        +:+ word in
      if fits cv test_line then wrap_words rest test_line l
      else wrap_words rest word (text_line current_line l)
  end.

(** The body of [for line in markdown_text.split(...)]. *)
Definition layout_line (l : Layout cv) (line : string) : Layout cv :=
  let words := split_ws line in
  match words with
  | [] => text_line EmptyString l
  | _ =>
      let (current_line, l') := wrap_words words EmptyString l in
      if String.eqb current_line EmptyString then l'
      else text_line current_line l'
  end.

(** [generate_pdf_from_markdown(markdown_text)], by the lines of text
    drawn on each page of the PDF. *)
Definition generate_pdf_from_markdown (markdown_text : string)
    : list (list string) :=
  let start :=
    {| pages := []; textobject := []; y := top_margin cv |} in
  let l := fold_left layout_line (split_lines markdown_text) start in
  pages l ++ [textobject l].

End Pdf.

(** All lines laid out so far, in order. *)
Definition lines_of {cv} (l : Layout cv) : list string :=
  concat (pages l) ++ textobject l.

(** A word: not empty, no white space in it. *)
Fixpoint is_word_tail (s : string) : bool :=
  match s with
  | EmptyString => true
  | String a rest => negb (is_space a) && is_word_tail rest
  end.

Definition is_word (s : string) : bool :=
  negb (String.eqb s EmptyString) && is_word_tail s.

(** A canvas on which every line fits and a page takes three lines. *)
Definition wide_canvas : Canvas :=
  {| ypos := nat;
     top_margin := 3;
     line_down := pred;
     at_bottom := fun y => (y <=? 0)%nat;
     fits := fun _ => true |}.

(** A canvas on which a line fits up to twelve characters. *)
Definition narrow_canvas : Canvas :=
  {| ypos := nat;
     top_margin := 3;
     line_down := pred;
     at_bottom := fun y => (y <=? 0)%nat;
     fits := fun s => (String.length s <=? 12)%nat |}.

(** ** [app.py]: the form *)

Fixpoint lstrip (s : string) : string :=
  match s with
  | EmptyString => EmptyString
  | String a rest => if is_space a then lstrip rest else s
  end.

Fixpoint rstrip (s : string) : string :=
  match s with
  | EmptyString => EmptyString
  | String a rest =>
      let r := rstrip rest in
      if is_space a && String.eqb r EmptyString then EmptyString
      else String a r
  end.

(** [s.strip()] *)
Definition strip (s : string) : string := lstrip (rstrip s).

(** An entry of [st.session_state.messages]. *)
Record Message : Type := {
  message_role : string;
  content : PyVal
}.

(** What the page does that can be seen from outside. *)
Inductive UiEvent : Type :=
| UiWarning (text : string)           (* st.warning *)
| UiMarkdown (text : string)          (* st.markdown in the user's bubble *)
| UiApiCall (user_content : string)   (* call_research_api *)
| UiHtml (html_report : string)       (* st.components.v1.html *)
| UiDownload (pdf : list (list string)). (* st.download_button *)

(** The libraries behind the page.  The calls into Streamlit itself are
    taken to return. *)
Record Ui : Type := {
  UploadedFile : Type;
  (* extract_file_text(uploaded_file), which runs docling *)
  extract_file_text : UploadedFile -> outcome string;
  (* markdown.markdown(response) *)
  markdown_markdown : PyVal -> outcome string
}.

(** [reset_chat()] *)
Definition reset_chat (messages : list Message) : list Message := [].

(** [user_content], from the text of the form and the text of the file. *)
Definition user_content_of (text_input file_text : string) : string :=
  let user_content :=
    if String.eqb text_input EmptyString then EmptyString
    else strip text_input in
  if String.eqb file_text EmptyString then user_content
  else user_content +:+ nl +:+ nl +:+ "[file content]:" +:+ nl +:+ file_text.

Section Form.

Context (web : Web) (API_URL : string) (cv : Canvas) (ui : Ui).

(** The script under [if submit:].  It yields how the run ended, the
    messages of the session and what the page did. *)
Definition on_submit (text_input : string)
    (uploaded_file : option (UploadedFile ui)) (messages : list Message)
    : outcome unit * list Message * list UiEvent :=
  match (match uploaded_file with
         | Some f => extract_file_text ui f
         | None => Ok EmptyString
         end) with
  | Raise e => (Raise e, messages, [])
  | Ok file_text =>
      let user_content := user_content_of text_input file_text in
      if String.eqb user_content EmptyString then
        (Ok tt, messages,
         [UiWarning "Please enter a question or upload a file."])
      else
        let messages :=
          messages ++
          [{| message_role := "user"; content := PyStr user_content |}] in
        let shown := [UiMarkdown user_content; UiApiCall user_content] in
        match call_research_api web API_URL user_content with
        | Raise e => (Raise e, messages, shown)
        | Ok response =>
            match markdown_markdown ui response with
            | Raise e => (Raise e, messages, shown)
            | Ok html_report =>
                match response with
                | PyStr markdown_text =>
                    let pdf_buffer :=
                      generate_pdf_from_markdown cv markdown_text in
                    (Ok tt,
                     messages ++
                     [{| message_role := "assistant";
                         content := response |}],
                     shown ++ [UiHtml html_report; UiDownload pdf_buffer])
                | _ =>
                    (Raise (Exception
                              ("'" +:+ type_name response +:+
                               "' object has no attribute 'split'")),
                     messages, shown ++ [UiHtml html_report])
                end
            end
        end
  end.

End Form.

(** No character of [s] but white space. *)
Fixpoint is_blank (s : string) : bool :=
  match s with
  | EmptyString => true
  | String a rest => is_space a && is_blank rest
  end.

(** The contents the page sent to the backend. *)
Fixpoint api_calls (evs : list UiEvent) : list string :=
  match evs with
  | [] => []
  | UiApiCall user_content :: rest => user_content :: api_calls rest
  | _ :: rest => api_calls rest
  end.

(** ** The browser talking to the backend *)

(** The reply [requests] makes of an HTTP response: [raise_for_status]
    raises for the status codes 400 to 599, and [json()] gives the JSON
    object of the body back as a dict of strings; a body that is plain
    text goes through the JSON parser. *)
Definition reply_of (error_text : Z -> string)
    (loads : string -> outcome PyVal) (r : Response) : HttpReply :=
  {| raise_for_status :=
       if (400 <=? http_status r)%Z && (http_status r <? 600)%Z
       then Some (Exception (error_text (http_status r)))
       else None;
     json :=
       match body r with
       | JsonObject fields =>
           Ok (PyDict (map (fun kv => (kv.1, PyStr kv.2)) fields))
       | PlainText text => loads text
       end |}.

(** A network that reaches the backend in state [st], and a JSON parser
    that knows no JSON at all. *)
Definition loopback (sv : Services) (st : State) : Web :=
  {| requests_post :=
       fun _ user_content =>
         Ok (reply_of (fun code => pretty code +:+ " Error")
                      (fun _ => Raise (Exception "Expecting value"))
                      (post_query sv {| input := user_content |} st).1);
     json_loads := fun _ => Raise (Exception "Expecting value") |}.

(** A network that is down. *)
Definition offline : Web :=
  {| requests_post :=
       fun _ _ =>
         Raise (Exception
                  ("HTTPConnectionPool(host='localhost', port=8000): " +:+
                   "Max retries exceeded with url: /query"));
     json_loads := fun _ => Raise (Exception "Expecting value") |}.

(** Libraries of the page that do nothing of note. *)
Definition plain_ui : Ui :=
  {| UploadedFile := string;
     extract_file_text := fun file => Ok file;
     markdown_markdown :=
       fun v => match v with
                | PyStr s => Ok ("<p>" +:+ s +:+ "</p>")
                | _ => Raise (Exception "not a string")
                end |}.

(** ** Reading a layout *)

(** The words of some lines, in order. *)
Definition words_of (lines : list string) : list string :=
  flat_map split_ws lines.

(** A line with its words one space apart and no white space around. *)
Definition normalize_line (line : string) : string :=
  String.concat " " (split_ws line).

(** A laid-out line is an empty line, a line that passed the width test,
    or a single word. *)
Definition line_ok (cv : Canvas) (line : string) : bool :=
  String.eqb line EmptyString || fits cv line || is_word line.

(** The lines the loop over the words of a line tries one after the other
    as long as each of them fits, starting from [current_line]. *)
Fixpoint candidates_from (current_line : string) (words : list string)
    : list string :=
  match words with
  | [] => []
  | word :: rest =>
      let test_line :=
        current_line +:+
        (if String.eqb current_line EmptyString then EmptyString else " ")
        +:+ word in
      test_line :: candidates_from test_line rest
  end.

(** Every candidate line of the text passes the width test. *)
Definition all_candidates_fit (cv : Canvas) (markdown_text : string) : bool :=
  forallb (fun line =>
             forallb (fits cv) (candidates_from EmptyString (split_ws line)))
          (split_lines markdown_text).

(** No page but the first is without a line. *)
Definition no_blank_page (ps : list (list string)) : Prop :=
  Forall (fun page => page <> []) (tail ps).

(** What the layout keeps true of its pages: no page shown after the
    first is empty, and once a page was shown the text object in the
    making has a line. *)
Definition tidy {cv} (l : Layout cv) : Prop :=
  Forall (fun page => page <> []) (tail (pages l)) /\
  (pages l <> [] -> textobject l <> []).

(** * Properties *)

(** ** Strings *)

Lemma prefix_append (p s : string) : String.prefix p (p +:+ s) = true.
Proof.
  induction p as [|a p IH]; simpl.
  - by destruct s.
  - by destruct (Ascii.ascii_dec a a).
Qed.

Lemma concat_singleton (sep x : string) : String.concat sep [x] = x.
Proof. reflexivity. Qed.

(** Brings a log written with nested appends to one shape. *)
Ltac list_norm :=
  repeat (rewrite <- app_assoc || rewrite <- app_comm_cons); try done.

(** ** The monad *)

Lemma bind_Ok {A B} (m : M A) (f : A -> M B) st b st2 :
  bind m f st = (Ok b, st2) ->
  exists a st1, m st = (Ok a, st1) /\ f a st1 = (Ok b, st2).
Proof.
  unfold bind. destruct (m st) as [[a|e] st1]; [eauto | discriminate].
Qed.

Lemma bind_eq_Ok {A B} (m : M A) (f : A -> M B) st a st1 :
  m st = (Ok a, st1) -> bind m f st = f a st1.
Proof. unfold bind. by intros ->. Qed.

Lemma bind_eq_Raise {A B} (m : M A) (f : A -> M B) st e st1 :
  m st = (Raise e, st1) -> bind m f st = (Raise e, st1).
Proof. unfold bind. by intros ->. Qed.

(** A [try] whose handler returns always returns. *)
Lemma try_except_returns {A} (body : M A) (h : exn -> A) st :
  exists a,
    (try_except body (fun e => ret (h e)) st).1 = Ok a /\
    match (body st).1 with
    | Ok x => a = x
    | Raise e => a = h e
    end.
Proof.
  unfold try_except, ret.
  destruct (body st) as [[x|e] st1]; simpl; eauto.
Qed.

(** ** Events *)

Lemma forallb_weaken {A} (p q : A -> bool) (l : list A) :
  (forall x, p x = true -> q x = true) ->
  forallb p l = true -> forallb q l = true.
Proof.
  intros Hpq. induction l as [|x l IH]; simpl; [done|].
  intros [Hx Hl]%andb_prop. by rewrite (Hpq x Hx), IH.
Qed.

Lemma emits_weaken {A} (p q : Event -> bool) (m : M A) :
  (forall e, p e = true -> q e = true) -> emits p m -> emits q m.
Proof.
  intros Hpq Hm st. destruct (Hm st) as (He & Hd & evs & Hl & Hp).
  repeat split; [done..|]. exists evs. eauto using forallb_weaken.
Qed.

Lemma emits_ret {A} p (a : A) : emits p (ret a).
Proof. intros st. repeat split. exists []. by rewrite app_nil_r. Qed.

Lemma emits_raise {A} p e : emits p (@raise A e).
Proof. intros st. repeat split. exists []. by rewrite app_nil_r. Qed.

Lemma emits_bind {A B} p (m : M A) (f : A -> M B) :
  emits p m -> (forall a, emits p (f a)) -> emits p (bind m f).
Proof.
  intros Hm Hf st. unfold bind.
  destruct (Hm st) as (He & Hd & evs & Hl & Hp).
  destruct (m st) as [[a|e] st1]; simpl in *.
  - destruct (Hf a st1) as (He' & Hd' & evs' & Hl' & Hp').
    repeat split; [congruence..|].
    exists (evs ++ evs'). rewrite Hl', Hl, forallb_app, Hp, Hp'.
    by rewrite app_assoc.
  - repeat split; [done..|]. by exists evs.
Qed.

Lemma emits_try_except {A} p (body : M A) (h : exn -> M A) :
  emits p body -> (forall e, emits p (h e)) -> emits p (try_except body h).
Proof.
  intros Hm Hh st. unfold try_except.
  destruct (Hm st) as (He & Hd & evs & Hl & Hp).
  destruct (body st) as [[a|e] st1]; simpl in *.
  - repeat split; [done..|]. by exists evs.
  - destruct (Hh e st1) as (He' & Hd' & evs' & Hl' & Hp').
    repeat split; [congruence..|].
    exists (evs ++ evs'). rewrite Hl', Hl, forallb_app, Hp, Hp'.
    by rewrite app_assoc.
Qed.

Lemma emits_emit p e : p e = true -> emits p (emit e).
Proof.
  intros He st. repeat split. exists [e]. simpl. by rewrite He.
Qed.

Lemma emits_getenv p key : p (EvGetenv key) = true -> emits p (getenv key).
Proof.
  intros He st. repeat split. exists [EvGetenv key]. simpl. by rewrite He.
Qed.

Lemma emits_get_state p : emits p get_state.
Proof. intros st. repeat split. exists []. by rewrite app_nil_r. Qed.

(** ** The search tool *)

Section SearchTool.

Context (sv : Services).

Lemma lib_call_Ok c st u st' :
  lib_call sv c st = (Ok u, st') -> fault sv st c = None /\ st' = st.
Proof.
  unfold lib_call. destruct (fault sv st c); [discriminate|].
  by intros [= _ <-].
Qed.

Lemma emits_lib_call p c : emits p (lib_call sv c).
Proof.
  intros st. unfold lib_call. destruct (fault sv st c); simpl;
    (repeat split; exists []; by rewrite app_nil_r).
Qed.

Lemma emits_search p linkup_client query depth output_type :
  p (EvSearch query depth output_type) = true ->
  emits p (search sv linkup_client query depth output_type).
Proof.
  intros He st. repeat split. exists [EvSearch query depth output_type].
  simpl. by rewrite He.
Qed.

(** [_run], one outcome of the provider at a time. *)
Lemma _run_unfold self query depth output_type st :
  let d := default "standard" depth in
  let o := default "searchResults" output_type in
  let st1 := add_event (EvGetenv "LINKUP_API_KEY") st in
  let client := {| client_api_key := environ st !! "LINKUP_API_KEY" |} in
  _run sv self query depth output_type st =
    match fault sv st1 NewLinkupClient with
    | Some e => (Ok ("Error occurred while searching: " +:+ str_exn e), st1)
    | None =>
        (Ok match linkup_search sv st1 client query d o with
            | Ok response => str_response response
            | Raise e => "Error occurred while searching: " +:+ str_exn e
            end,
         add_event (EvSearch query d o) st1)
    end.
Proof.
  intros d o st1 client.
  unfold _run, try_except, _run_body, bind, getenv, new_LinkupClient, bind,
    lib_call, search, ret.
  fold d o st1. destruct (fault sv st1 NewLinkupClient); [done|].
  fold client. by destruct (linkup_search sv st1 client query d o).
Qed.

Lemma _run_body_unfold query d o st :
  let st1 := add_event (EvGetenv "LINKUP_API_KEY") st in
  let client := {| client_api_key := environ st !! "LINKUP_API_KEY" |} in
  (_run_body sv query d o st).1 =
    match fault sv st1 NewLinkupClient with
    | Some e => Raise e
    | None =>
        match linkup_search sv st1 client query d o with
        | Ok response => Ok (str_response response)
        | Raise e => Raise e
        end
    end.
Proof.
  intros st1 client.
  unfold _run_body, bind, getenv, new_LinkupClient, bind, lib_call, search,
    ret.
  fold st1. destruct (fault sv st1 NewLinkupClient); [done|].
  fold client. by destruct (linkup_search sv st1 client query d o).
Qed.

Lemma emits_run self query depth output_type :
  emits is_tool_event (_run sv self query depth output_type).
Proof.
  unfold _run, _run_body.
  apply emits_try_except; [|intros; apply emits_ret].
  apply emits_bind; [by apply emits_getenv|]. intros key.
  apply emits_bind.
  { unfold new_LinkupClient. apply emits_bind; [apply emits_lib_call|].
    intros; apply emits_ret. }
  intros client. apply emits_bind; [by apply emits_search|].
  intros; apply emits_ret.
Qed.

Lemma _run_returns self query depth output_type st :
  exists observation,
    (_run sv self query depth output_type st).1 = Ok observation.
Proof.
  unfold _run.
  destruct (try_except_returns
              (_run_body sv query (default "standard" depth)
                         (default "searchResults" output_type))
              (fun e => "Error occurred while searching: " +:+ str_exn e) st)
    as (a & Ha & _).
  eauto.
Qed.

Lemma _run_heap self query depth output_type st :
  heap (_run sv self query depth output_type st).2 = heap st.
Proof.
  rewrite _run_unfold. simpl.
  by destruct (fault sv _ NewLinkupClient).
Qed.

(** An agent's tool call hands the agent an observation, whatever the
    provider did. *)
Lemma run_agent_CallTool ts tool_name query depth output_type k st :
  exists observation st',
    run_agent sv ts (CallTool tool_name query depth output_type k) st =
    run_agent sv ts (k observation) st'.
Proof.
  simpl. destruct (find_tool tool_name ts) as [self|]; [|eauto].
  destruct (_run_returns self query depth output_type st) as (obs & Hobs).
  destruct (_run sv self query depth output_type st) as [r st'] eqn:E.
  simpl in Hobs. subst r.
  exists obs, st'. by rewrite (bind_eq_Ok _ _ _ _ _ E).
Qed.

Lemma emits_run_agent ts p : emits is_tool_event (run_agent sv ts p).
Proof.
  induction p as [r|tool_name query depth output_type k IH]; simpl.
  - intros st. repeat split. exists []. by rewrite app_nil_r.
  - destruct (find_tool tool_name ts) as [self|]; [|apply IH].
    apply emits_bind; [apply emits_run|]. intros; apply IH.
Qed.

Lemma run_agent_heap ts p st : heap (run_agent sv ts p st).2 = heap st.
Proof.
  revert st.
  induction p as [r|tool_name query depth output_type k IH]; intros st;
    simpl; [done|].
  destruct (find_tool tool_name ts) as [self|]; [|apply IH].
  unfold bind.
  pose proof (_run_heap self query depth output_type st) as Hh.
  destruct (_run_returns self query depth output_type st) as (obs & Hobs).
  destruct (_run sv self query depth output_type st) as [r st'].
  simpl in *. subst r. by rewrite IH.
Qed.

(** C2.  Whatever the query, depth and output type, and whatever the
    provider does, [LinkUpSearchTool._run] returns a string: the provider's
    response as text when the client was built and the search answered,
    a descriptive error string when either raised.  An agent that calls the
    tool therefore always goes on with an observation. *)
Theorem search_tool_never_raises
    (self : Tool) (query : string) (depth output_type : option string)
    (st : State) :
  let d := default "standard" depth in
  let o := default "searchResults" output_type in
  let st1 := add_event (EvGetenv "LINKUP_API_KEY") st in
  let client := {| client_api_key := environ st !! "LINKUP_API_KEY" |} in
  (_run sv self query depth output_type st).1 =
    Ok match fault sv st1 NewLinkupClient with
       | Some e => "Error occurred while searching: " +:+ str_exn e
       | None =>
           match linkup_search sv st1 client query d o with
           | Ok response => str_response response
           | Raise e => "Error occurred while searching: " +:+ str_exn e
           end
       end
  /\ forall ts tool_name k,
       exists observation st',
         run_agent sv ts (CallTool tool_name query depth output_type k) st =
         run_agent sv ts (k observation) st'.
Proof.
  intros d o st1 client. split.
  - rewrite _run_unfold. fold d o st1 client.
    by destruct (fault sv st1 NewLinkupClient).
  - intros. apply run_agent_CallTool.
Qed.

(** C10, as the code has it.  When building the client or the search
    raises [e], the tool returns ["Error occurred while searching: "]
    followed by [str(e)]; when the search answers, the tool returns the
    text of the answer as it is.  So the prefix tells a failure from a
    success as far as no answer of the provider prints with it. *)
Theorem search_tool_error_prefix
    (self : Tool) (query : string) (depth output_type : option string)
    (st : State) :
  exists observation,
    (_run sv self query depth output_type st).1 = Ok observation /\
    match (_run_body sv query (default "standard" depth)
                     (default "searchResults" output_type) st).1 with
    | Raise e =>
        observation = "Error occurred while searching: " +:+ str_exn e /\
        String.prefix "Error occurred while searching: " observation = true
    | Ok text => observation = text
    end /\
    ((forall st1 client q d o response,
        linkup_search sv st1 client q d o = Ok response ->
        String.prefix "Error occurred while searching: "
                      (str_response response) = false) ->
     (String.prefix "Error occurred while searching: " observation = true
      <->
      exists e,
        (_run_body sv query (default "standard" depth)
                   (default "searchResults" output_type) st).1 = Raise e)).
Proof.
  rewrite _run_unfold, _run_body_unfold.
  destruct (fault sv _ NewLinkupClient) as [e|]; simpl.
  { eexists. split; [reflexivity|]. split.
    - split; [reflexivity|apply prefix_append].
    - intros _. split; [eauto|]. intros _. apply prefix_append. }
  destruct (linkup_search sv _ _ query _ _) as [response|e] eqn:Hs.
  - eexists. split; [reflexivity|]. split; [reflexivity|].
    intros Hclean. rewrite (Hclean _ _ _ _ _ _ Hs).
    split; [discriminate|]. by intros [e [=]].
  - eexists. split; [reflexivity|]. split.
    + split; [reflexivity|apply prefix_append].
    + intros _. split; [eauto|]. intros _. apply prefix_append.
Qed.

End SearchTool.

Lemma search_tool_error_prefix_witness :
  (exists observation,
     (_run (sample_services provider_down (Ok sound_report)) sample_tool
           "solid-state batteries" None (Some "sourcedAnswer") st0).1
       = Ok observation /\
     observation = "Error occurred while searching: connection refused" /\
     String.prefix "Error occurred while searching: " observation = true) /\
  (exists observation,
     (_run (sample_services provider_up (Ok sound_report)) sample_tool
           "solid-state batteries" None None st0).1 = Ok observation /\
     observation = "results=[solid-state batteries]" /\
     (String.prefix "Error occurred while searching: " observation = true
      <->
      exists e,
        (_run_body (sample_services provider_up (Ok sound_report))
                   "solid-state batteries" "standard" "searchResults"
                   st0).1 = Raise e)).
Proof.
  split.
  - destruct (search_tool_error_prefix
                (sample_services provider_down (Ok sound_report))
                sample_tool "solid-state batteries" None
                (Some "sourcedAnswer") st0)
      as (observation & Hrun & Hshape & _).
    exists observation. split; [exact Hrun|exact Hshape].
  - destruct (search_tool_error_prefix
                (sample_services provider_up (Ok sound_report))
                sample_tool "solid-state batteries" None None st0)
      as (observation & Hrun & Hshape & Hmarks).
    exists observation. split; [exact Hrun|]. split; [exact Hshape|].
    apply Hmarks. intros st1 client q d o response Hanswer.
    injection Hanswer as <-. reflexivity.
Defined.

(** C10, as the claim has it, fails: an answer of the provider that
    prints like a failure gives the agent the very string a failed search
    gives, so the prefix does not tell the two apart. *)
Lemma search_success_can_look_like_failure :
  is_ok (_run_body (sample_services provider_mimic (Ok sound_report))
                   "solid-state batteries" "standard" "searchResults"
                   st0).1 = true /\
  is_ok (_run_body (sample_services provider_down (Ok sound_report))
                   "solid-state batteries" "standard" "searchResults"
                   st0).1 = false /\
  (_run (sample_services provider_mimic (Ok sound_report)) sample_tool
        "solid-state batteries" None None st0).1 =
    Ok "Error occurred while searching: connection refused" /\
  (_run (sample_services provider_down (Ok sound_report)) sample_tool
        "solid-state batteries" None None st0).1 =
    Ok "Error occurred while searching: connection refused".
Proof. repeat split. Qed.

(** ** Building the crew *)

Section Crew.

Context (sv : Services).

Lemma LinkUpSearchTool_Ok st tool st' :
  LinkUpSearchTool sv st = (Ok tool, st') ->
  fault sv st NewLinkUpSearchTool = None /\
  tool = {| name := "LinkUp Search";
            tool_description :=
              "Search the web for information using LinkUp and return " +:+
              "comprehensive results" |} /\
  st' = st.
Proof.
  unfold LinkUpSearchTool. intros (u & s & Hc & Hr)%bind_Ok.
  apply lib_call_Ok in Hc as [Hf ->]. by injection Hr as <- <-.
Qed.

Lemma get_llm_client_Ok st client st' :
  get_llm_client sv st = (Ok client, st') ->
  client = {| model := "gemini/gemini-2.5-flash";
              llm_verbose := true;
              temperature := 0;
              api_key := environ st !! "GEMINI_API_KEY" |} /\
  st' = add_event (EvGetenv "GEMINI_API_KEY") st.
Proof.
  unfold get_llm_client. intros (key & s & Hk & H)%bind_Ok.
  injection Hk as <- <-.
  apply bind_Ok in H as (u & s & Hc & Hr).
  apply lib_call_Ok in Hc as [_ ->]. by injection Hr as <- <-.
Qed.

Lemma new_Agent_Ok a st a' st' :
  new_Agent sv a st = (Ok a', st') -> a' = a /\ st' = st.
Proof.
  unfold new_Agent. intros (u & s & Hc & Hr)%bind_Ok.
  apply lib_call_Ok in Hc as [_ ->]. by injection Hr as <- <-.
Qed.

Lemma new_Task_Ok t st ref st' :
  new_Task sv t st = (Ok ref, st') ->
  ref = length (heap st) /\ st' = set_heap (heap st ++ [t]) st.
Proof.
  unfold new_Task. intros (u & s & Hc & Hr)%bind_Ok.
  apply lib_call_Ok in Hc as [_ ->]. by injection Hr as <- <-.
Qed.

Lemma new_Crew_Ok c st c' st' :
  new_Crew sv c st = (Ok c', st') -> c' = c /\ st' = st.
Proof.
  unfold new_Crew. intros (u & s & Hc & Hr)%bind_Ok.
  apply lib_call_Ok in Hc as [_ ->]. by injection Hr as <- <-.
Qed.

(** The crew [create_research_crew] returns, and the state it leaves. *)
Lemma create_research_crew_Ok query st crew st1 :
  create_research_crew sv query st = (Ok crew, st1) ->
  let n := length (heap st) in
  let linkup_search_tool :=
    {| name := "LinkUp Search";
       tool_description :=
         "Search the web for information using LinkUp and return " +:+
         "comprehensive results" |} in
  let client :=
    {| model := "gemini/gemini-2.5-flash"; llm_verbose := true;
       temperature := 0; api_key := environ st !! "GEMINI_API_KEY" |} in
  let web_searcher :=
    {| role := "Web Searcher"; goal := web_searcher_goal;
       backstory := web_searcher_backstory; verbose := true;
       allow_delegation := true; tools := [linkup_search_tool];
       llm := client |} in
  let research_analyst :=
    {| role := "Research Analyst"; goal := research_analyst_goal;
       backstory := research_analyst_backstory; verbose := true;
       allow_delegation := true; tools := []; llm := client |} in
  let technical_writer :=
    {| role := "Technical Writer"; goal := technical_writer_goal;
       backstory := technical_writer_backstory; verbose := true;
       allow_delegation := false; tools := []; llm := client |} in
  let search_task :=
    {| description := search_task_description query;
       agent := web_searcher;
       expected_output := search_task_expected_output;
       task_tools := [linkup_search_tool]; context := None;
       output := None |} in
  let analysis_task :=
    {| description := analysis_task_description;
       agent := research_analyst;
       expected_output := analysis_task_expected_output;
       task_tools := []; context := Some [n]; output := None |} in
  let writing_task :=
    {| description := writing_task_description;
       agent := technical_writer;
       expected_output := writing_task_expected_output;
       task_tools := []; context := Some [n + 1]; output := None |} in
  fault sv st NewLinkUpSearchTool = None /\
  crew = {| agents := [web_searcher; research_analyst; technical_writer];
            tasks := [n; n + 1; n + 2];
            crew_verbose := true;
            process := sequential |} /\
  st1 = set_heap (heap st ++ [search_task; analysis_task; writing_task])
                 (add_event (EvGetenv "GEMINI_API_KEY") st).
Proof.
  unfold create_research_crew. intros H. simpl.
  apply bind_Ok in H as (tool & s & H0 & H).
  apply LinkUpSearchTool_Ok in H0 as (Hf & -> & ->).
  apply bind_Ok in H as (client & s & H0 & H).
  apply get_llm_client_Ok in H0 as (-> & ->).
  apply bind_Ok in H as (ws & s & H0 & H).
  apply new_Agent_Ok in H0 as (-> & ->).
  apply bind_Ok in H as (ra & s & H0 & H).
  apply new_Agent_Ok in H0 as (-> & ->).
  apply bind_Ok in H as (tw & s & H0 & H).
  apply new_Agent_Ok in H0 as (-> & ->).
  apply bind_Ok in H as (t1 & s & H0 & H).
  apply new_Task_Ok in H0 as (-> & ->).
  apply bind_Ok in H as (t2 & s & H0 & H).
  apply new_Task_Ok in H0 as (-> & ->).
  apply bind_Ok in H as (t3 & s & H0 & H).
  apply new_Task_Ok in H0 as (-> & ->).
  apply bind_Ok in H as (c & s & H0 & H).
  apply new_Crew_Ok in H0 as (-> & ->).
  injection H as <- <-.
  unfold set_heap, add_event; simpl.
  rewrite !length_app; simpl.
  rewrite <- !(assoc_L (++)); simpl.
  rewrite <- !Nat.add_assoc; simpl.
  done.
Qed.

End Crew.

(** ** Running the crew *)

Section Kickoff.

Context (sv : Services).


Lemma task_events_app evs evs' :
  task_events (evs ++ evs') = task_events evs ++ task_events evs'.
Proof. apply List.filter_app. Qed.

Lemma task_events_tool evs :
  forallb is_tool_event evs = true -> task_events evs = [].
Proof.
  induction evs as [|e evs IH]; simpl; [done|].
  intros [He Hevs]%andb_prop. rewrite (IH Hevs). by destruct e.
Qed.

Lemma tool_event_is_run_event e :
  is_tool_event e = true -> is_run_event e = true.
Proof. unfold is_run_event. intros ->. apply orb_true_r. Qed.

(** Closes [forallb is_run_event _ = true] for a log made of task events
    and runs of tool events. *)
Ltac run_events :=
  repeat match goal with
         | H : forallb is_tool_event ?evs = true
           |- context [forallb is_run_event ?evs] =>
             rewrite (forallb_weaken is_tool_event is_run_event evs
                        tool_event_is_run_event H)
         | |- _ => rewrite forallb_app
         | |- _ => progress simpl
         end; try done.

(** One task: the start event carries the context, tool events follow, and
    the end event and the stored output come only when the agent returns. *)
Lemma execute_task_trace t task_outputs st obj r st' :
  heap st !! t = Some obj ->
  execute_task sv t task_outputs st = (r, st') ->
  let ctx := context_text (heap st) obj task_outputs in
  environ st' = environ st /\
  exists evs,
    forallb is_tool_event evs = true /\
    match r with
    | Ok out =>
        log st' = log st ++ EvTaskStart t ctx :: evs ++ [EvTaskEnd t out] /\
        heap st' = alter (with_output out) t (heap st)
    | Raise _ =>
        log st' = log st ++ EvTaskStart t ctx :: evs /\
        heap st' = heap st
    end.
Proof.
  intros Hobj. unfold execute_task, bind, deref, get_context, emit,
    get_state, set_output, ret.
  rewrite Hobj. simpl.
  set (ctx := context_text (heap st) obj task_outputs).
  set (st1 := add_event (EvTaskStart t ctx) st).
  pose proof (emits_run_agent sv (tools_for obj) (llm_plan sv st1 obj ctx) st1)
    as (Henv & _ & evs & Hlog & Hevs).
  pose proof (run_agent_heap sv (tools_for obj) (llm_plan sv st1 obj ctx) st1)
    as Hheap.
  destruct (run_agent sv (tools_for obj) (llm_plan sv st1 obj ctx) st1)
    as [[out|e] st2]; simpl in *; intros [= <- <-]; simpl.
  - split; [done|]. exists evs. split; [done|].
    rewrite Hlog, Hheap. simpl. by rewrite <- !(assoc_L (++)).
  - split; [done|]. exists evs. split; [done|].
    rewrite Hlog, Hheap. simpl. by rewrite <- !(assoc_L (++)).
Qed.

Lemma lookup_after (h l : list Task) n i :
  n = length h -> (h ++ l) !! (n + i) = l !! i.
Proof. intros ->. by rewrite lookup_app_r, Nat.add_comm, Nat.add_sub by lia. Qed.

Lemma lookup_at (h l : list Task) n :
  n = length h -> (h ++ l) !! n = l !! 0.
Proof. intros ->. by rewrite lookup_app_r, Nat.sub_diag by lia. Qed.

Lemma alter_after (f : Task -> Task) (h l : list Task) n i :
  n = length h -> alter f (n + i) (h ++ l) = h ++ alter f i l.
Proof. intros ->. apply alter_app_r. Qed.

Lemma alter_at (f : Task -> Task) (h l : list Task) n :
  n = length h -> alter f n (h ++ l) = h ++ alter f 0 l.
Proof.
  intros ->. rewrite <- (alter_app_r f h l 0). by rewrite Nat.add_0_r.
Qed.

Lemma kickoff_trace crew h t1 t2 t3 st1 r st2 :
  let n := length h in
  process crew = sequential ->
  tasks crew = [n; n + 1; n + 2] ->
  heap st1 = h ++ [t1; t2; t3] ->
  chained n t1 t2 t3 ->
  kickoff sv crew st1 = (r, st2) ->
  environ st2 = environ st1 /\
  exists evs o1 o2 o3 k,
    log st2 = log st1 ++ evs /\
    forallb is_run_event evs = true /\
    task_events evs = take k (chain n o1 o2 o3) /\
    match r with
    | Ok result =>
        k = 6 /\ result = {| raw := o3; tasks_output := [o1; o2; o3] |} /\
        heap st2 =
          h ++ [with_output o1 t1; with_output o2 t2; with_output o3 t3]
    | Raise _ => k = 1 \/ k = 3 \/ k = 5
    end.
Proof.
  intros n Hp Hts Hh (Hc1 & Hc2 & Hc3). unfold kickoff. rewrite Hp, Hts.
  simpl. unfold bind at 1 2.
  (* the search task *)
  assert (heap st1 !! n = Some t1) as L1.
  { rewrite Hh. by rewrite (lookup_at h _ n eq_refl). }
  destruct (execute_task sv n [] st1) as [[o1|e] sa] eqn:E1;
    apply (execute_task_trace _ _ _ _ _ _ L1) in E1
      as (Henv1 & evs1 & Hev1 & Hlog1 & Hheap1);
    unfold context_text, aggregate_raw_outputs in Hlog1;
    rewrite Hc1 in Hlog1; simpl in Hlog1.
  2:{ intros [= <- <-]. split; [done|].
      exists (EvTaskStart n EmptyString :: evs1), EmptyString, EmptyString, EmptyString, 1.
      repeat split; [done| | |by left].
      - run_events.
      - simpl. by rewrite (task_events_tool _ Hev1). }
  rewrite Hh, (alter_at _ h _ n eq_refl) in Hheap1. simpl in Hheap1.
  (* the analysis task *)
  unfold bind at 1.
  assert (heap sa !! (n + 1) = Some t2) as L2.
  { rewrite Hheap1. by rewrite (lookup_after h _ n 1 eq_refl). }
  destruct (execute_task sv (n + 1) [o1] sa) as [[o2|e] sb] eqn:E2;
    apply (execute_task_trace _ _ _ _ _ _ L2) in E2
      as (Henv2 & evs2 & Hev2 & Hlog2 & Hheap2);
    unfold context_text, aggregate_raw_outputs in Hlog2;
    rewrite Hc2 in Hlog2; simpl in Hlog2;
    rewrite Hheap1, (lookup_at h _ n eq_refl) in Hlog2; simpl in Hlog2.
  2:{ intros [= <- <-]. split; [congruence|].
      exists (EvTaskStart n EmptyString :: evs1 ++ [EvTaskEnd n o1] ++
              EvTaskStart (n + 1) o1 :: evs2), o1, EmptyString, EmptyString, 3.
      repeat split.
      - rewrite Hlog2, Hlog1. list_norm.
      - run_events.
      - simpl. rewrite task_events_app, (task_events_tool _ Hev1). simpl.
        by rewrite (task_events_tool _ Hev2).
      - right; by left. }
  rewrite Hheap1, (alter_after _ h _ n 1 eq_refl) in Hheap2.
  simpl in Hheap2.
  (* the writing task *)
  unfold bind at 1.
  assert (heap sb !! (n + 2) = Some t3) as L3.
  { rewrite Hheap2. by rewrite (lookup_after h _ n 2 eq_refl). }
  destruct (execute_task sv (n + 2) [o1; o2] sb) as [[o3|e] sc] eqn:E3;
    apply (execute_task_trace _ _ _ _ _ _ L3) in E3
      as (Henv3 & evs3 & Hev3 & Hlog3 & Hheap3);
    unfold context_text, aggregate_raw_outputs in Hlog3;
    rewrite Hc3 in Hlog3; simpl in Hlog3;
    rewrite Hheap2, (lookup_after h _ n 1 eq_refl) in Hlog3;
    simpl in Hlog3.
  2:{ intros [= <- <-]. split; [congruence|].
      exists (EvTaskStart n EmptyString :: evs1 ++ [EvTaskEnd n o1] ++
              EvTaskStart (n + 1) o1 :: evs2 ++ [EvTaskEnd (n + 1) o2] ++
              EvTaskStart (n + 2) o2 :: evs3), o1, o2, EmptyString, 5.
      repeat split.
      - rewrite Hlog3, Hlog2, Hlog1. list_norm.
      - run_events.
      - simpl. rewrite task_events_app, (task_events_tool _ Hev1). simpl.
        rewrite task_events_app, (task_events_tool _ Hev2). simpl.
        by rewrite (task_events_tool _ Hev3).
      - right; by right. }
  rewrite Hheap2, (alter_after _ h _ n 2 eq_refl) in Hheap3.
  simpl in Hheap3.
  unfold ret. simpl. intros [= <- <-]. split; [congruence|].
  exists (EvTaskStart n EmptyString :: evs1 ++ [EvTaskEnd n o1] ++
          EvTaskStart (n + 1) o1 :: evs2 ++ [EvTaskEnd (n + 1) o2] ++
          EvTaskStart (n + 2) o2 :: evs3 ++ [EvTaskEnd (n + 2) o3]),
    o1, o2, o3, 6.
  repeat split; [| | |done].
  - rewrite Hlog3, Hlog2, Hlog1. list_norm.
  - run_events.
  - simpl. rewrite task_events_app, (task_events_tool _ Hev1). simpl.
    rewrite task_events_app, (task_events_tool _ Hev2). simpl.
    rewrite task_events_app, (task_events_tool _ Hev3). by simpl.
Qed.

End Kickoff.

(** ** The query service *)

Section QueryService.

Context (sv : Services).

Lemma get_raw_Ok result st s st' :
  get_raw sv result st = (Ok s, st') -> s = raw result /\ st' = st.
Proof.
  unfold get_raw. intros (u & s1 & Hc & Hr)%bind_Ok.
  apply lib_call_Ok in Hc as [_ ->]. by injection Hr as <- <-.
Qed.

Lemma new_events_app st st' evs :
  log st' = log st ++ evs -> new_events st st' = evs.
Proof. unfold new_events. intros ->. apply drop_app_length. Qed.

Lemma last_chain n o1 o2 o3 :
  last (chain n o1 o2 o3) = Some (EvTaskEnd (n + 2) o3).
Proof. reflexivity. Qed.

(** The success path of [run_research]: the crew was built, the three tasks
    ran in order, and the value is the output of the writing task. *)
Lemma run_research_body_Ok query st report st' :
  run_research_body sv query st = (Ok report, st') ->
  let n := length (heap st) in
  exists evs o1 o2 t1 t2 t3,
    log st' = log st ++ EvGetenv "GEMINI_API_KEY" :: evs /\
    forallb is_run_event evs = true /\
    task_events evs = chain n o1 o2 report /\
    heap st' = heap st ++ [t1; t2; t3] /\
    output t3 = Some report /\
    goal (agent t3) = technical_writer_goal.
Proof.
  intros H n. unfold run_research_body in H.
  apply bind_Ok in H as (crew & st1 & Hc & H).
  apply bind_Ok in H as (result & st2 & Hk & Hr).
  apply get_raw_Ok in Hr as (-> & ->).
  apply create_research_crew_Ok in Hc as (_ & -> & ->).
  eapply (kickoff_trace sv _ (heap st)) in Hk
    as (_ & evs & o1 & o2 & o3 & k & Hlog & Hev & Hte & -> & -> & Hheap);
    [|reflexivity..|by repeat split].
  simpl in *.
  exists evs, o1, o2. eexists _, _, _.
  repeat split; [|done|done|apply Hheap|done|done].
  rewrite Hlog. list_norm.
Qed.

(** C1.  For every query and whatever fails inside (building the crew, any
    of the three tasks, reading the result), [run_research] returns a
    string: the output of the final task when nothing raised, and otherwise
    ["Error: "] followed by the message of the exception. *)
Theorem run_research_never_raises (query : string) (st : State) :
  exists s,
    (run_research sv query st).1 = Ok s /\
    match (run_research_body sv query st).1 with
    | Ok report =>
        s = report /\
        last (task_events (new_events st (run_research sv query st).2)) =
          Some (EvTaskEnd (length (heap st) + 2) report)
    | Raise e =>
        s = "Error: " +:+ str_exn e /\ String.prefix "Error: " s = true
    end.
Proof.
  unfold run_research, try_except, ret.
  destruct (run_research_body sv query st) as [[report|e] st'] eqn:E; simpl.
  - exists report. repeat split.
    apply run_research_body_Ok in E
      as (evs & o1 & o2 & t1 & t2 & t3 & Hlog & _ & Hte & _).
    rewrite (new_events_app _ _ _ Hlog). simpl. rewrite Hte.
    apply last_chain.
  - eexists. repeat split. apply prefix_append.
Qed.

(** C3.  The crew holds exactly three tasks, in the order search task (of
    the Web Searcher), analysis task (of the Research Analyst), writing
    task (of the Technical Writer), run under [Process.sequential]; their
    context graph is the chain search <- analysis <- writing.  Whatever
    the agents do, the task events of [kickoff] are an initial part of:
    search starts, search ends with [o1], analysis starts with context
    [o1], analysis ends with [o2], writing starts with context [o2],
    writing ends with [o3]; all of it when [kickoff] returns, each output
    stored on its task, and cut after a start when that task raises. *)
Theorem tasks_run_in_chain_order
    (query : string) (st : State) (crew : Crew) (st1 : State) :
  create_research_crew sv query st = (Ok crew, st1) ->
  let n := length (heap st) in
  let r := (kickoff sv crew st1).1 in
  let st2 := (kickoff sv crew st1).2 in
  tasks crew = [n; n + 1; n + 2] /\
  process crew = sequential /\
  exists t1 t2 t3 o1 o2 o3 k,
    heap st1 = heap st ++ [t1; t2; t3] /\
    role (agent t1) = "Web Searcher" /\
    description t1 = search_task_description query /\
    role (agent t2) = "Research Analyst" /\
    description t2 = analysis_task_description /\
    role (agent t3) = "Technical Writer" /\
    description t3 = writing_task_description /\
    chained n t1 t2 t3 /\
    task_events (new_events st1 st2) = take k (chain n o1 o2 o3) /\
    match r with
    | Ok result =>
        k = 6 /\
        result = {| raw := o3; tasks_output := [o1; o2; o3] |} /\
        heap st2 =
          heap st ++
          [with_output o1 t1; with_output o2 t2; with_output o3 t3]
    | Raise _ => k = 1 \/ k = 3 \/ k = 5
    end.
Proof.
  intros Hc n. apply create_research_crew_Ok in Hc as (_ & -> & ->).
  cbv zeta. split; [reflexivity|]. split; [reflexivity|].
  destruct (kickoff sv _ _) as [r st2] eqn:Hk.
  eapply (kickoff_trace sv _ (heap st)) in Hk
    as (_ & evs & o1 & o2 & o3 & k & Hlog & Hev & Hte & Hr);
    [|reflexivity..|by repeat split].
  cbn [fst snd]. eexists _, _, _, o1, o2, o3, k.
  split; [reflexivity|]. do 6 (split; [reflexivity|]).
  split; [by repeat split|].
  split; [by rewrite (new_events_app _ _ _ Hlog)|].
  exact Hr.
Qed.

(** C6.  The three agents of the crew: the Web Searcher has the search
    tool and may delegate, the Research Analyst has no tool and may
    delegate, the Technical Writer may not delegate. *)
Theorem agents_have_fixed_roles
    (query : string) (st : State) (crew : Crew) (st1 : State) :
  create_research_crew sv query st = (Ok crew, st1) ->
  exists web_searcher research_analyst technical_writer linkup_search_tool,
    agents crew = [web_searcher; research_analyst; technical_writer] /\
    name linkup_search_tool = "LinkUp Search" /\
    role web_searcher = "Web Searcher" /\
    tools web_searcher = [linkup_search_tool] /\
    allow_delegation web_searcher = true /\
    role research_analyst = "Research Analyst" /\
    tools research_analyst = [] /\
    allow_delegation research_analyst = true /\
    role technical_writer = "Technical Writer" /\
    allow_delegation technical_writer = false.
Proof.
  intros Hc. apply create_research_crew_Ok in Hc as (_ & -> & _).
  simpl. eexists _, _, _, _. split; [reflexivity|]. by repeat split.
Qed.

(** When the crew was built, [kickoff] returned and reading [raw] does not
    fail, [run_research] returns [raw], the output of the writing task. *)
Lemma run_research_returns_raw query st crew st1 result st2 :
  create_research_crew sv query st = (Ok crew, st1) ->
  kickoff sv crew st1 = (Ok result, st2) ->
  fault sv st2 GetRaw = None ->
  run_research sv query st = (Ok (raw result), st2) /\
  last (task_events (new_events st st2)) =
    Some (EvTaskEnd (length (heap st) + 2) (raw result)) /\
  exists t1 t2 t3,
    heap st2 = heap st ++ [t1; t2; t3] /\
    output t3 = Some (raw result) /\
    role (agent t3) = "Technical Writer" /\
    goal (agent t3) = technical_writer_goal /\
    description t3 = writing_task_description.
Proof.
  intros Hc Hk Hraw.
  assert (run_research_body sv query st = (Ok (raw result), st2)) as Hbody.
  { unfold run_research_body.
    rewrite (bind_eq_Ok _ _ _ _ _ Hc), (bind_eq_Ok _ _ _ _ _ Hk).
    unfold get_raw, bind, lib_call, ret. by rewrite Hraw. }
  split; [unfold run_research, try_except; by rewrite Hbody|].
  clear Hbody.
  apply create_research_crew_Ok in Hc as (_ & -> & ->).
  eapply (kickoff_trace sv _ (heap st)) in Hk
    as (_ & evs & o1 & o2 & o3 & k & Hlog & Hev & Hte & -> & -> & Hheap);
    [|reflexivity..|by repeat split].
  simpl in *. split.
  - assert (log st2 = log st ++ EvGetenv "GEMINI_API_KEY" :: evs) as Hl.
    { rewrite Hlog. list_norm. }
    rewrite (new_events_app _ _ _ Hl). simpl. rewrite Hte.
    apply last_chain.
  - eexists _, _, _. split; [apply Hheap|]. by repeat split.
Qed.

(** C7.  The query text goes into the description of the search task and
    nowhere else: two crews built from the same state for two queries have
    the same agents, the same analysis and writing tasks, and search tasks
    that differ in the description only.  On the success path, that is
    when [kickoff] returned [result] and [raw] could be read,
    [run_research] returns [result.raw], which is the output stored on the
    writing task, the last task to end. *)
Theorem query_in_search_task_only
    (query query' : string) (st : State)
    (crew crew' : Crew) (st1 st1' : State) :
  create_research_crew sv query st = (Ok crew, st1) ->
  create_research_crew sv query' st = (Ok crew', st1') ->
  let interpolated q :=
    "Conduct an exhaustive web search for authoritative, up-to-date " +:+
    "information about: " +:+ q +:+ ". " +:+
    "Collect facts, data, and potential visuals (charts, diagrams, " +:+
    "images) relevant to the research query. " +:+
    "Ensure all findings are accompanied by accurate source links " +:+
    "(urls) suitable for citation in a formal research report." in
  (exists t1 t1' t2 t3,
     heap st1 = heap st ++ [t1; t2; t3] /\
     heap st1' = heap st ++ [t1'; t2; t3] /\
     description t1 = interpolated query /\
     description t1' = interpolated query' /\
     agent t1 = agent t1' /\
     expected_output t1 = expected_output t1' /\
     task_tools t1 = task_tools t1' /\
     context t1 = context t1') /\
  agents crew = agents crew' /\
  tasks crew = tasks crew' /\
  forall result st2,
    kickoff sv crew st1 = (Ok result, st2) ->
    fault sv st2 GetRaw = None ->
    run_research sv query st = (Ok (raw result), st2) /\
    last (task_events (new_events st st2)) =
      Some (EvTaskEnd (length (heap st) + 2) (raw result)) /\
    exists t1 t2 t3,
      heap st2 = heap st ++ [t1; t2; t3] /\
      output t3 = Some (raw result) /\
      role (agent t3) = "Technical Writer" /\
      description t3 = writing_task_description.
Proof.
  intros Hc Hc' interpolated.
  split; [|split; [|split]].
  - apply create_research_crew_Ok in Hc as (_ & _ & ->).
    apply create_research_crew_Ok in Hc' as (_ & _ & ->).
    simpl. eexists _, _, _, _. split; [reflexivity|]. by repeat split.
  - apply create_research_crew_Ok in Hc as (_ & -> & _).
    by apply create_research_crew_Ok in Hc' as (_ & -> & _).
  - apply create_research_crew_Ok in Hc as (_ & -> & _).
    by apply create_research_crew_Ok in Hc' as (_ & -> & _).
  - intros result st2 Hk Hraw.
    destruct (run_research_returns_raw _ _ _ _ _ _ Hc Hk Hraw)
      as (Hrun & Hlast & t1 & t2 & t3 & Hheap & Hout & Hrole & _ & Hdesc).
    split; [done|]. split; [done|]. by exists t1, t2, t3.
Qed.

End QueryService.

Lemma tasks_run_in_chain_order_witness :
  exists crew st1,
    create_research_crew (sample_services provider_up (Ok sound_report))
                         "solid-state batteries" st0 = (Ok crew, st1) /\
    (kickoff (sample_services provider_up (Ok sound_report)) crew st1).1 =
      Ok {| raw := sound_report;
            tasks_output :=
              ["found: results=[solid-state batteries]";
               "notes: found: results=[solid-state batteries]";
               sound_report] |} /\
    task_events
      (new_events st1
         (kickoff (sample_services provider_up (Ok sound_report))
                  crew st1).2) =
      chain 0 "found: results=[solid-state batteries]"
            "notes: found: results=[solid-state batteries]" sound_report /\
    tasks crew = [0; 1; 2] /\
    process crew = sequential /\
    exists t1 t2 t3 o1 o2 o3 k,
      heap st1 = heap st0 ++ [t1; t2; t3] /\
      role (agent t1) = "Web Searcher" /\
      description t1 = search_task_description "solid-state batteries" /\
      role (agent t2) = "Research Analyst" /\
      description t2 = analysis_task_description /\
      role (agent t3) = "Technical Writer" /\
      description t3 = writing_task_description /\
      chained 0 t1 t2 t3 /\
      task_events
        (new_events st1
           (kickoff (sample_services provider_up (Ok sound_report))
                    crew st1).2) = take k (chain 0 o1 o2 o3) /\
      match (kickoff (sample_services provider_up (Ok sound_report))
                     crew st1).1 with
      | Ok result =>
          k = 6 /\
          result = {| raw := o3; tasks_output := [o1; o2; o3] |} /\
          heap (kickoff (sample_services provider_up (Ok sound_report))
                        crew st1).2 =
            heap st0 ++
            [with_output o1 t1; with_output o2 t2; with_output o3 t3]
      | Raise _ => k = 1 \/ k = 3 \/ k = 5
      end.
Proof.
  pose proof
    (eq_refl
     : create_research_crew (sample_services provider_up (Ok sound_report))
                            "solid-state batteries" st0 = (Ok _, _)) as H.
  eexists _, _. split; [exact H|].
  split; [vm_compute; reflexivity|].
  split; [vm_compute; reflexivity|].
  exact (tasks_run_in_chain_order _ _ _ _ _ H).
Defined.

Lemma agents_have_fixed_roles_witness :
  exists crew st1,
    create_research_crew (sample_services provider_down (Ok sound_report))
                         EmptyString st0 = (Ok crew, st1) /\
    exists web_searcher research_analyst technical_writer linkup_search_tool,
      agents crew = [web_searcher; research_analyst; technical_writer] /\
      name linkup_search_tool = "LinkUp Search" /\
      role web_searcher = "Web Searcher" /\
      tools web_searcher = [linkup_search_tool] /\
      allow_delegation web_searcher = true /\
      role research_analyst = "Research Analyst" /\
      tools research_analyst = [] /\
      allow_delegation research_analyst = true /\
      role technical_writer = "Technical Writer" /\
      allow_delegation technical_writer = false.
Proof.
  pose proof
    (eq_refl
     : create_research_crew (sample_services provider_down (Ok sound_report))
                            EmptyString st0 = (Ok _, _)) as H.
  eexists _, _. split; [exact H|].
  exact (agents_have_fixed_roles _ _ _ _ _ H).
Defined.

Lemma query_in_search_task_only_witness :
  exists crew st1 crew' st1',
    create_research_crew (sample_services provider_up (Ok sound_report))
                         "solid-state batteries" st0 = (Ok crew, st1) /\
    create_research_crew (sample_services provider_up (Ok sound_report))
                         "sodium-ion batteries" st0 = (Ok crew', st1') /\
    (kickoff (sample_services provider_up (Ok sound_report)) crew st1).1 =
      Ok {| raw := sound_report;
            tasks_output :=
              ["found: results=[solid-state batteries]";
               "notes: found: results=[solid-state batteries]";
               sound_report] |} /\
    fault (sample_services provider_up (Ok sound_report))
          (kickoff (sample_services provider_up (Ok sound_report))
                   crew st1).2 GetRaw = None /\
    agents crew = agents crew' /\
    tasks crew = tasks crew' /\
    run_research (sample_services provider_up (Ok sound_report))
                 "solid-state batteries" st0 =
      (Ok sound_report,
       (kickoff (sample_services provider_up (Ok sound_report))
                crew st1).2) /\
    last (task_events
            (new_events st0
               (kickoff (sample_services provider_up (Ok sound_report))
                        crew st1).2)) =
      Some (EvTaskEnd 2 sound_report).
Proof.
  pose proof
    (eq_refl
     : create_research_crew (sample_services provider_up (Ok sound_report))
                            "solid-state batteries" st0 = (Ok _, _)) as H.
  pose proof
    (eq_refl
     : create_research_crew (sample_services provider_up (Ok sound_report))
                            "sodium-ion batteries" st0 = (Ok _, _)) as H'.
  match type of H with
  | _ = (Ok ?c, ?s) =>
      assert (kickoff (sample_services provider_up (Ok sound_report)) c s =
              (Ok {| raw := sound_report;
                     tasks_output :=
                       ["found: results=[solid-state batteries]";
                        "notes: found: results=[solid-state batteries]";
                        sound_report] |},
               (kickoff (sample_services provider_up (Ok sound_report))
                        c s).2)) as Hk
        by (vm_compute; reflexivity)
  end.
  destruct (query_in_search_task_only _ _ _ _ _ _ _ _ H H')
    as (_ & Hagents & Htasks & Hreturn).
  destruct (Hreturn _ _ Hk eq_refl) as (Hrun & Hlast & _).
  eexists _, _, _, _. split; [exact H|]. split; [exact H'|].
  split; [by rewrite Hk|]. split; [reflexivity|].
  split; [exact Hagents|]. split; [exact Htasks|].
  split; [exact Hrun|exact Hlast].
Defined.

(** ** Reading the configuration *)

Section Configuration.

Context (sv : Services).

Lemma emits_no_event_log {A} (m : M A) st :
  emits no_event m -> log (m st).2 = log st.
Proof.
  intros Hm. destruct (Hm st) as (_ & _ & evs & -> & Hevs).
  destruct evs; [by rewrite app_nil_r|discriminate].
Qed.

Lemma emits_new_Agent p a : emits p (new_Agent sv a).
Proof.
  unfold new_Agent. apply emits_bind; [apply emits_lib_call|].
  intros; apply emits_ret.
Qed.

Lemma emits_new_Task p t : emits p (new_Task sv t).
Proof.
  unfold new_Task. apply emits_bind; [apply emits_lib_call|].
  intros _ st. repeat split. exists []. simpl. by rewrite app_nil_r.
Qed.

Lemma emits_new_Crew p c : emits p (new_Crew sv c).
Proof.
  unfold new_Crew. apply emits_bind; [apply emits_lib_call|].
  intros; apply emits_ret.
Qed.

Lemma LinkUpSearchTool_unfold st :
  LinkUpSearchTool sv st =
    match fault sv st NewLinkUpSearchTool with
    | Some e => (Raise e, st)
    | None =>
        (Ok {| name := "LinkUp Search";
               tool_description :=
                 "Search the web for information using LinkUp and return " +:+
                 "comprehensive results" |}, st)
    end.
Proof.
  unfold LinkUpSearchTool, bind, lib_call, ret.
  by destruct (fault sv st NewLinkUpSearchTool).
Qed.

Lemma get_llm_client_unfold st :
  let st1 := add_event (EvGetenv "GEMINI_API_KEY") st in
  get_llm_client sv st =
    match fault sv st1 NewLLM with
    | Some e => (Raise e, st1)
    | None =>
        (Ok {| model := "gemini/gemini-2.5-flash"; llm_verbose := true;
               temperature := 0;
               api_key := environ st !! "GEMINI_API_KEY" |}, st1)
    end.
Proof.
  intros st1. unfold get_llm_client, bind, getenv, lib_call, ret. fold st1.
  by destruct (fault sv st1 NewLLM).
Qed.

(** Building the crew looks up the LLM key once, unless the tool object
    could not be made. *)
Lemma create_research_crew_log query st :
  environ (create_research_crew sv query st).2 = environ st /\
  log (create_research_crew sv query st).2 =
    match fault sv st NewLinkUpSearchTool with
    | Some _ => log st
    | None => log st ++ [EvGetenv "GEMINI_API_KEY"]
    end.
Proof.
  destruct (create_research_crew sv query st) as [r st1] eqn:E. simpl.
  unfold create_research_crew in E. unfold bind at 1 in E.
  rewrite LinkUpSearchTool_unfold in E.
  destruct (fault sv st NewLinkUpSearchTool) as [e|]; cbv beta iota in E;
    [by injection E as <- <-|].
  unfold bind at 1 in E. rewrite get_llm_client_unfold in E.
  destruct (fault sv _ NewLLM) as [e|]; cbv beta iota zeta in E;
    [by injection E as <- <-|].
  match type of E with
  | bind ?m ?f ?s = _ => assert (emits no_event (bind m f)) as Hrest
  end.
  { repeat (apply emits_bind;
            [first [apply emits_new_Agent | apply emits_new_Task
                   | apply emits_new_Crew]|intros]).
    apply emits_ret. }
  pose proof (emits_no_event_log _ (add_event (EvGetenv "GEMINI_API_KEY") st)
                Hrest) as Hlog.
  destruct (Hrest (add_event (EvGetenv "GEMINI_API_KEY") st)) as (Henv & _).
  rewrite E in Hlog, Henv. by split.
Qed.

Lemma run_research_state query st :
  (run_research sv query st).2 = (run_research_body sv query st).2.
Proof.
  unfold run_research, try_except, ret.
  by destruct (run_research_body sv query st) as [[?|?] ?].
Qed.

Lemma get_raw_state result st : (get_raw sv result st).2 = st.
Proof.
  unfold get_raw, bind, lib_call, ret. by destruct (fault sv st GetRaw).
Qed.

(** The log of a query: at most the lookup of the LLM key, then task and
    tool events. *)
Lemma run_research_log query st :
  environ (run_research sv query st).2 = environ st /\
  match fault sv st NewLinkUpSearchTool with
  | Some _ => log (run_research sv query st).2 = log st
  | None =>
      exists evs,
        log (run_research sv query st).2 =
          log st ++ EvGetenv "GEMINI_API_KEY" :: evs /\
        forallb is_run_event evs = true
  end.
Proof.
  rewrite run_research_state. unfold run_research_body, bind.
  pose proof (create_research_crew_log query st) as [Henv Hlog].
  destruct (create_research_crew sv query st) as [[crew|e] st1] eqn:Hc;
    simpl in *.
  - apply create_research_crew_Ok in Hc as (Hf & -> & Hst1).
    rewrite Hf in *.
    destruct (kickoff sv _ st1) as [r st2] eqn:Hk.
    eapply (kickoff_trace sv _ (heap st)) in Hk
      as (Henv2 & evs & o1 & o2 & o3 & k & Hlog2 & Hev & _);
      [|reflexivity|reflexivity|by rewrite Hst1|by repeat split].
    assert (log st2 = log st ++ EvGetenv "GEMINI_API_KEY" :: evs) as Hl.
    { rewrite Hlog2, Hlog. list_norm. }
    destruct r as [result|e].
    + rewrite get_raw_state. split; [congruence|]. by exists evs.
    + simpl. split; [congruence|]. by exists evs.
  - split; [done|].
    destruct (fault sv st NewLinkUpSearchTool); [done|].
    exists []. by rewrite Hlog.
Qed.

Lemma reads_of_same key evs :
  reads_of key (EvGetenv key :: evs) = S (reads_of key evs).
Proof. unfold reads_of. simpl. by rewrite String.eqb_refl. Qed.

Lemma run_events_read_no_llm_key evs :
  forallb is_run_event evs = true -> reads_of "GEMINI_API_KEY" evs = 0.
Proof.
  unfold reads_of. induction evs as [|e evs IH]; simpl; [done|].
  intros [He Hevs]%andb_prop. destruct e; simpl; auto.
  unfold is_run_event in He. simpl in He.
  apply String.eqb_eq in He as ->. simpl. auto.
Qed.

(** C4, as the code has it.  [load_dotenv] runs when the module is
    imported and the program never writes the environment afterwards.  The
    model identifier and the temperature are literals.  The LLM key is
    looked up by every [get_llm_client], hence once in every query whose
    tool object could be made, and the provider key is looked up once by
    every invocation of the search tool. *)
Theorem configuration_is_read_on_use :
  (forall st, new_events st (import_agents st).2 = [EvLoadDotenv]) /\
  (forall st,
     let st1 := add_event (EvGetenv "GEMINI_API_KEY") st in
     get_llm_client sv st =
       match fault sv st1 NewLLM with
       | Some e => (Raise e, st1)
       | None =>
           (Ok {| model := "gemini/gemini-2.5-flash"; llm_verbose := true;
                  temperature := 0;
                  api_key := environ st !! "GEMINI_API_KEY" |}, st1)
       end) /\
  (forall query st,
     environ (run_research sv query st).2 = environ st /\
     reads_of "GEMINI_API_KEY"
              (new_events st (run_research sv query st).2) =
       match fault sv st NewLinkUpSearchTool with
       | Some _ => 0
       | None => 1
       end) /\
  (forall self query depth output_type st,
     environ (_run sv self query depth output_type st).2 = environ st /\
     env_reads (new_events st (_run sv self query depth output_type st).2) =
       ["LINKUP_API_KEY"]).
Proof.
  split; [|split; [|split]].
  - intros st. unfold new_events, import_agents, load_dotenv. simpl.
    apply drop_app_length.
  - apply get_llm_client_unfold.
  - intros query st. pose proof (run_research_log query st) as [Henv Hlog].
    split; [done|].
    destruct (fault sv st NewLinkUpSearchTool).
    + unfold new_events. rewrite Hlog. by rewrite drop_all.
    + destruct Hlog as (evs & Hlog & Hev).
      rewrite (new_events_app _ _ _ Hlog), reads_of_same.
      by rewrite (run_events_read_no_llm_key _ Hev).
  - intros self query depth output_type st. rewrite _run_unfold.
    unfold new_events.
    destruct (fault sv _ NewLinkupClient); simpl; (split; [done|]).
    + by rewrite drop_app_length.
    + by rewrite <- app_assoc, drop_app_length.
Qed.

End Configuration.

(** C4, as the claim has it, fails: nothing is looked up when the module
    is imported, and the keys are looked up again while a query is handled
    and while the search tool runs. *)
Lemma configuration_is_read_per_query :
  env_reads (new_events st0 (import_agents st0).2) = [] /\
  env_reads
    (new_events st0
       (run_research (sample_services provider_up (Ok sound_report))
                     "solid-state batteries" st0).2)
    = ["GEMINI_API_KEY"; "LINKUP_API_KEY"] /\
  env_reads
    (new_events st0
       (_run (sample_services provider_up (Ok sound_report))
             sample_tool
             "solid-state batteries" None None st0).2)
    = ["LINKUP_API_KEY"].
Proof. repeat split; vm_compute; reflexivity. Qed.

(** ** Citations in the report *)

Section Citations.

Context (sv : Services).


End Citations.


(** The program does not check the report itself: a report with one
    reference and a citation [[2]], which is outside the condition above,
    comes back from [run_research] as the writer wrote it. *)
Lemma dangling_citation_is_returned :
  (run_research (sample_services provider_up (Ok dangling_report))
                "solid-state batteries" st0).1 = Ok dangling_report /\
  reference_entries dangling_report = 1 /\
  citation_indices dangling_report = [1; 2] /\
  citations_resolve dangling_report = false.
Proof. repeat split; vm_compute; reflexivity. Qed.

(** ** The HTTP facade *)

Section Facade.

Context (sv : Services).

Lemma run_research_returns query st :
  exists s,
    run_research sv query st = (Ok s, (run_research_body sv query st).2) /\
    match (run_research_body sv query st).1 with
    | Ok report => s = report
    | Raise e => s = "Error: " +:+ str_exn e
    end.
Proof.
  unfold run_research, try_except, ret.
  destruct (run_research_body sv query st) as [[report|e] st']; simpl; eauto.
Qed.

(** C9.  [run_research] always returns, so the handler of [query_endpoint]
    is never entered: for every request, [POST /query] answers 200 with
    the body [{"result": s}], [s] being what [run_research] returned, an
    ["Error: ..."] string included. *)
Theorem query_endpoint_always_200 (request : QueryRequest) (st : State) :
  exists s,
    (run_research sv (input request) st).1 = Ok s /\
    (query_endpoint sv request st).1 = Ok {| result := s |} /\
    (post_query sv request st).1 =
      {| http_status := 200; body := JsonObject [("result", s)] |} /\
    match (run_research_body sv (input request) st).1 with
    | Ok report => s = report
    | Raise e => s = "Error: " +:+ str_exn e
    end.
Proof.
  destruct (run_research_returns (input request) st) as (s & Hrun & Hs).
  exists s. unfold post_query, serve, query_endpoint, try_except, bind.
  rewrite Hrun. by repeat split.
Qed.

End Facade.

(** C8.  [GET /status] answers 200 with the body [{"status": "ok"}] in
    every state; the route does not touch the query service. *)
Theorem status_always_ok (st : State) :
  get_status st =
    ({| http_status := 200; body := JsonObject [("status", "ok")] |}, st).
Proof. reflexivity. Qed.

(** A failing writer is reported by [POST /query] with status 200. *)
Example failed_query_is_200 :
  (post_query
     (sample_services provider_down (Raise (Exception "quota exceeded")))
     {| input := EmptyString |} st0).1 =
  {| http_status := 200;
     body := JsonObject [("result", "Error: quota exceeded")] |}.
Proof. reflexivity. Qed.

(** With the provider down, the pipeline still ends with the writer's
    report. *)
Example provider_down_still_reports :
  (run_research (sample_services provider_down (Ok sound_report))
                "current state of solid-state batteries" st0).1 =
  Ok sound_report.
Proof. reflexivity. Qed.

(** ** More on the pipeline *)

Section Pipeline.

Context (sv : Services).

(** One invocation of the search tool looks up the provider key, then
    calls the provider once, with the arguments it was given (["standard"]
    and ["searchResults"] for those left out); when the client cannot be
    built the provider is not called at all.  Nothing is retried and the
    store of tasks is not touched. *)
Theorem search_tool_calls_provider_once
    (self : Tool) (query : string) (depth output_type : option string)
    (st : State) :
  let st' := (_run sv self query depth output_type st).2 in
  heap st' = heap st /\
  new_events st st' =
    match fault sv (add_event (EvGetenv "LINKUP_API_KEY") st)
                NewLinkupClient with
    | Some _ => [EvGetenv "LINKUP_API_KEY"]
    | None =>
        [EvGetenv "LINKUP_API_KEY";
         EvSearch query (default "standard" depth)
                  (default "searchResults" output_type)]
    end.
Proof.
  simpl. split; [apply _run_heap|].
  rewrite _run_unfold. unfold new_events.
  destruct (fault sv _ NewLinkupClient); simpl.
  - by rewrite drop_app_length.
  - by rewrite <- app_assoc, drop_app_length.
Qed.

(** When the crew cannot be built, [run_research] reports the exception
    of the failing constructor; no task was started and the provider was
    not called: at most the LLM key was looked up. *)
Theorem crew_failure_runs_nothing
    (query : string) (st : State) (e : exn) (st1 : State) :
  create_research_crew sv query st = (Raise e, st1) ->
  run_research sv query st = (Ok ("Error: " +:+ str_exn e), st1) /\
  (new_events st st1 = [] \/
   new_events st st1 = [EvGetenv "GEMINI_API_KEY"]).
Proof.
  intros Hc. split.
  - unfold run_research, try_except, run_research_body.
    by rewrite (bind_eq_Raise _ _ _ _ _ Hc).
  - pose proof (create_research_crew_log sv query st) as [_ Hlog].
    rewrite Hc in Hlog. simpl in Hlog. unfold new_events.
    destruct (fault sv st NewLinkUpSearchTool); rewrite Hlog.
    + left. by rewrite drop_all.
    + right. by rewrite drop_app_length.
Qed.

Lemma keeps_below_same {A} n (m : M A) :
  (forall st, heap (m st).2 = heap st) -> keeps_below n m.
Proof. intros Hm st Hn. by rewrite Hm. Qed.

Lemma keeps_below_bind {A B} n (m : M A) (f : A -> M B) :
  keeps_below n m -> (forall a, keeps_below n (f a)) ->
  keeps_below n (bind m f).
Proof.
  intros Hm Hf st Hn. unfold bind.
  destruct (Hm st Hn) as [Ht Hl].
  destruct (m st) as [[a|e] st1]; simpl in *; [|done].
  destruct (Hf a st1 Hl) as [Ht' Hl']. split; [congruence|done].
Qed.

Lemma keeps_below_lib_call n c : keeps_below n (lib_call sv c).
Proof.
  apply keeps_below_same. intros st. unfold lib_call.
  by destruct (fault sv st c).
Qed.

Lemma keeps_below_ret {A} n (a : A) : keeps_below n (ret a).
Proof. by apply keeps_below_same. Qed.

Lemma keeps_below_new_Agent n a : keeps_below n (new_Agent sv a).
Proof.
  unfold new_Agent. apply keeps_below_bind; [apply keeps_below_lib_call|].
  intros; apply keeps_below_ret.
Qed.

Lemma keeps_below_new_Crew n c : keeps_below n (new_Crew sv c).
Proof.
  unfold new_Crew. apply keeps_below_bind; [apply keeps_below_lib_call|].
  intros; apply keeps_below_ret.
Qed.

Lemma keeps_below_new_Task n t : keeps_below n (new_Task sv t).
Proof.
  unfold new_Task. apply keeps_below_bind; [apply keeps_below_lib_call|].
  intros _ st Hn. simpl. rewrite take_app_le, length_app by done.
  split; [done|lia].
Qed.

Lemma keeps_below_create_research_crew n query :
  keeps_below n (create_research_crew sv query).
Proof.
  unfold create_research_crew.
  apply keeps_below_bind.
  { unfold LinkUpSearchTool.
    apply keeps_below_bind; [apply keeps_below_lib_call|].
    intros; apply keeps_below_ret. }
  intros tool. apply keeps_below_bind.
  { unfold get_llm_client. apply keeps_below_bind; [by apply keeps_below_same|].
    intros key. apply keeps_below_bind; [apply keeps_below_lib_call|].
    intros; apply keeps_below_ret. }
  intros client.
  repeat (apply keeps_below_bind;
          [first [apply keeps_below_new_Agent | apply keeps_below_new_Task
                 | apply keeps_below_new_Crew]|intros]).
  apply keeps_below_ret.
Qed.

(** A task either leaves the store alone or stores its output on
    itself. *)
Lemma execute_task_heap t task_outputs st :
  heap (execute_task sv t task_outputs st).2 = heap st \/
  exists out,
    heap (execute_task sv t task_outputs st).2 =
      alter (with_output out) t (heap st).
Proof.
  unfold execute_task, bind, deref, get_context, emit, get_state,
    set_output, ret.
  destruct (heap st !! t) as [obj|]; simpl; [|by left].
  match goal with
  | |- context [run_agent sv ?ts ?p ?s] =>
      pose proof (run_agent_heap sv ts p s) as Hh;
      destruct (run_agent sv ts p s) as [[out|e] st2]
  end; simpl in *.
  - right. exists out. by rewrite Hh.
  - by left.
Qed.

Lemma keeps_below_execute_task n t task_outputs :
  n <= t -> keeps_below n (execute_task sv t task_outputs).
Proof.
  intros Ht st Hn.
  destruct (execute_task_heap t task_outputs st) as [->|[out ->]]; [done|].
  by rewrite take_alter_ge, length_alter.
Qed.

Lemma keeps_below_execute_tasks n ts task_outputs :
  Forall (fun t => n <= t) ts ->
  keeps_below n (_execute_tasks sv ts task_outputs).
Proof.
  intros Hts. revert task_outputs.
  induction Hts as [|t ts Ht Hts IH]; intros task_outputs; simpl.
  - apply keeps_below_ret.
  - apply keeps_below_bind; [by apply keeps_below_execute_task|].
    intros; apply IH.
Qed.

Lemma keeps_below_bind_Ok {A B} n (m : M A) (f : A -> M B) :
  keeps_below n m ->
  (forall st a st1,
     n <= length (heap st) -> m st = (Ok a, st1) ->
     take n (heap (f a st1).2) = take n (heap st1) /\
     n <= length (heap (f a st1).2)) ->
  keeps_below n (bind m f).
Proof.
  intros Hm Hf st Hn. unfold bind.
  destruct (Hm st Hn) as [Ht Hl].
  destruct (m st) as [[a|e] st1] eqn:E; simpl in *; [|done].
  destruct (Hf st a st1 Hn E) as [Ht' Hl']. split; [congruence|done].
Qed.

Lemma keeps_below_run_research_body n query :
  keeps_below n (run_research_body sv query).
Proof.
  unfold run_research_body.
  apply keeps_below_bind_Ok; [apply keeps_below_create_research_crew|].
  intros st crew st1 Hn Hc.
  pose proof (keeps_below_create_research_crew n query st Hn) as [_ Hl].
  rewrite Hc in Hl. simpl in Hl.
  apply create_research_crew_Ok in Hc as (_ & -> & _).
  revert Hl. generalize st1. intros s1 Hl.
  refine (keeps_below_bind n _ _ _ _ s1 Hl).
  - unfold kickoff. cbn [process tasks]. apply keeps_below_bind.
    + apply keeps_below_execute_tasks. repeat constructor; lia.
    + intros outs. destruct (last outs); [apply keeps_below_ret|].
      by apply keeps_below_same.
  - intros result. apply keeps_below_same. intros s.
    by rewrite get_raw_state.
Qed.

(** Whatever happens during a query, the task objects that existed before
    it are left as they were: a query works on the three objects it
    creates, and on no others. *)
Theorem run_research_keeps_earlier_tasks (query : string) (st : State) :
  take (length (heap st)) (heap (run_research sv query st).2) = heap st.
Proof.
  rewrite run_research_state.
  destruct (keeps_below_run_research_body (length (heap st)) query st
              (Nat.le_refl _)) as [-> _].
  apply firstn_all.
Qed.

End Pipeline.

Lemma crew_failure_runs_nothing_witness :
  exists st1,
    create_research_crew
      (faulty_services NewCrew (Exception "invalid crew")) "q" st0
      = (Raise (Exception "invalid crew"), st1) /\
    run_research (faulty_services NewCrew (Exception "invalid crew")) "q" st0
      = (Ok "Error: invalid crew", st1) /\
    (new_events st0 st1 = [] \/
     new_events st0 st1 = [EvGetenv "GEMINI_API_KEY"]).
Proof.
  pose proof
    (eq_refl
     : create_research_crew
         (faulty_services NewCrew (Exception "invalid crew")) "q" st0
       = (Raise (Exception "invalid crew"), _)) as H.
  eexists. split; [exact H|].
  exact (crew_failure_runs_nothing _ _ _ _ _ H).
Defined.

(** ** [app.py]: talking to the backend *)

Section Backend.

Context (web : Web) (API_URL : string).

Lemma findall_quoted_nonempty s q :
  Forall (fun part => part <> EmptyString) (findall_quoted q s).
Proof.
  revert q. induction s as [|a s IH]; intros q; simpl; [constructor|].
  destruct (Ascii.eqb a quote_char).
  - destruct q as [|[|b acc]]; [apply IH|apply IH|].
    constructor; [discriminate|apply IH].
  - destruct q; apply IH.
Qed.

Lemma truthy_last_quoted s part :
  last (findall_quoted QOut s) = Some part -> truthy (PyStr part) = true.
Proof.
  intros Hlast.
  pose proof (findall_quoted_nonempty s QOut) as Hall.
  rewrite Forall_forall in Hall.
  assert (part <> EmptyString) as Hne.
  { apply Hall. by apply last_Some_elem_of. }
  simpl. by destruct part.
Qed.

Lemma truthy_user_message_of error_message :
  truthy (user_message_of web error_message) = true.
Proof.
  unfold user_message_of. cbv zeta.
  set (m := message_from_json web error_message).
  destruct (truthy m) eqn:Hj; [by rewrite Hj|].
  destruct (last (findall_quoted QOut error_message)) as [part|] eqn:Hl.
  - pose proof (truthy_last_quoted _ _ Hl) as Hp. by rewrite Hp.
  - by rewrite Hj.
Qed.

(** [call_research_api] never raises.  When the exchange with the backend
    went through it yields the [result] of the reply; in every other case
    it yields a message that is not empty. *)
Theorem call_research_api_never_raises (user_content : string) :
  exists response,
    call_research_api web API_URL user_content = Ok response /\
    match call_research_api_body web API_URL user_content with
    | Ok result => response = result
    | Raise _ => truthy response = true
    end.
Proof.
  unfold call_research_api.
  destruct (call_research_api_body web API_URL user_content) as [r|e].
  - by exists r.
  - eexists. split; [reflexivity|]. apply truthy_user_message_of.
Qed.

Lemma contains_char c a s :
  contains (String c EmptyString) (String a s) =
    Ascii.eqb c a || contains (String c EmptyString) s.
Proof.
  cbn [contains String.prefix].
  destruct (Ascii.ascii_dec c a) as [->|Hne].
  - rewrite Ascii.eqb_refl. by destruct s.
  - apply Ascii.eqb_neq in Hne. by rewrite Hne.
Qed.

Lemma no_brace_no_match s :
  contains (String open_brace EmptyString) s = false ->
  re_search_braces s = None.
Proof.
  induction s as [|a s IH]; [done|].
  rewrite contains_char. intros [He Hc]%orb_false_elim.
  cbn [re_search_braces]. rewrite Ascii.eqb_sym, He. by apply IH.
Qed.

Lemma no_quote_no_part s q :
  contains (String quote_char EmptyString) s = false ->
  findall_quoted q s = [].
Proof.
  revert q. induction s as [|a s IH]; intros q; [done|].
  rewrite contains_char. intros [He Hc]%orb_false_elim.
  cbn [findall_quoted]. rewrite Ascii.eqb_sym, He.
  destruct q; by apply IH.
Qed.

(** When the exchange failed with a message that has no opening brace in
    it, the user is shown the last part of the message that stands
    between double quotes, and the fixed sentence when there is none, as
    when the message has no double quote at all. *)
Theorem call_research_api_error_message
    (user_content : string) (e : exn) :
  call_research_api_body web API_URL user_content = Raise e ->
  contains (String open_brace EmptyString) (str_exn e) = false ->
  let fallback :=
    PyStr ("An error occurred while contacting backend API. " +:+
           "Please try again later.") in
  call_research_api web API_URL user_content =
    Ok match last (findall_quoted QOut (str_exn e)) with
       | Some part => PyStr part
       | None => fallback
       end /\
  (contains (String quote_char EmptyString) (str_exn e) = false ->
   call_research_api web API_URL user_content = Ok fallback).
Proof.
  intros Hbody Hbrace fallback.
  assert (call_research_api web API_URL user_content =
          Ok match last (findall_quoted QOut (str_exn e)) with
             | Some part => PyStr part
             | None => fallback
             end) as Hcall.
  { unfold call_research_api. rewrite Hbody.
    unfold user_message_of, message_from_json.
    rewrite (no_brace_no_match _ Hbrace). simpl.
    destruct (last (findall_quoted QOut (str_exn e))) as [part|] eqn:Hl;
      [|done].
    by rewrite (truthy_last_quoted _ _ Hl). }
  split; [done|]. intros Hquote. rewrite Hcall.
  by rewrite (no_quote_no_part _ _ Hquote).
Qed.

End Backend.

Lemma call_research_api_error_message_witness :
  let e :=
    Exception ("HTTPConnectionPool(host='localhost', port=8000): " +:+
               "Max retries exceeded with url: /query") in
  call_research_api_body offline "http://localhost:8000/query" "hello"
    = Raise e /\
  contains (String open_brace EmptyString) (str_exn e) = false /\
  contains (String quote_char EmptyString) (str_exn e) = false /\
  call_research_api offline "http://localhost:8000/query" "hello" =
    Ok (PyStr ("An error occurred while contacting backend API. " +:+
               "Please try again later.")).
Proof.
  intros e.
  assert (call_research_api_body offline "http://localhost:8000/query"
                                 "hello" = Raise e) as H1 by reflexivity.
  assert (contains (String open_brace EmptyString) (str_exn e) = false)
    as H2 by reflexivity.
  assert (contains (String quote_char EmptyString) (str_exn e) = false)
    as H3 by reflexivity.
  split; [exact H1|]. split; [exact H2|]. split; [exact H3|].
  exact (proj2 (call_research_api_error_message offline _ _ _ H1 H2) H3).
Defined.

(** ** The browser and the backend together *)

Section EndToEnd.

Context (sv : Services).

Lemma post_query_result request st :
  exists s,
    (run_research sv (input request) st).1 = Ok s /\
    (post_query sv request st).1 =
      {| http_status := 200; body := JsonObject [("result", s)] |}.
Proof.
  destruct (run_research_returns sv (input request) st) as (s & Hrun & _).
  exists s. unfold post_query, serve, query_endpoint, try_except, bind.
  by rewrite Hrun.
Qed.

(** When the request reaches the backend and its reply comes back, the
    page gets from [call_research_api] the very string [run_research]
    returned, be it a report or an ["Error: ..."] string. *)
Theorem page_gets_what_run_research_returned
    (web : Web) (API_URL : string) (error_text : Z -> string)
    (user_content : string) (st : State) :
  requests_post web API_URL user_content =
    Ok (reply_of error_text (json_loads web)
                 (post_query sv {| input := user_content |} st).1) ->
  exists s,
    (run_research sv user_content st).1 = Ok s /\
    call_research_api web API_URL user_content = Ok (PyStr s).
Proof.
  intros Hpost.
  destruct (post_query_result {| input := user_content |} st)
    as (s & Hrun & Hq).
  exists s. split; [done|].
  unfold call_research_api, call_research_api_body.
  rewrite Hpost, Hq. reflexivity.
Qed.

End EndToEnd.

Lemma page_gets_what_run_research_returned_witness :
  let sv := sample_services provider_down (Ok sound_report) in
  exists s,
    (run_research sv "solid-state batteries" st0).1 = Ok s /\
    call_research_api (loopback sv st0) "http://localhost:8000/query"
                      "solid-state batteries" = Ok (PyStr s).
Proof.
  intros sv.
  exact (page_gets_what_run_research_returned sv (loopback sv st0)
           "http://localhost:8000/query"
           (fun code => pretty code +:+ " Error")
           "solid-state batteries" st0 eq_refl).
Defined.

(** ** [app.py]: laying the report out *)

Section Words.

Lemma append_nil (b : string) : EmptyString +:+ b = b.
Proof. reflexivity. Qed.

Lemma append_cons x (a b : string) : String x a +:+ b = String x (a +:+ b).
Proof. reflexivity. Qed.

Lemma append_assoc (a b c : string) : (a +:+ b) +:+ c = a +:+ (b +:+ c).
Proof.
  induction a as [|x a IH]; [reflexivity|].
  rewrite !append_cons. by rewrite IH.
Qed.

Lemma append_nonempty_r (a b : string) :
  b <> EmptyString -> a +:+ b <> EmptyString.
Proof.
  intros Hb. destruct a; [exact Hb|]. rewrite append_cons. discriminate.
Qed.

Lemma cons_word_app w ws more :
  cons_word w (ws ++ more) = cons_word w ws ++ more.
Proof. by destruct w. Qed.

Lemma scan_words_app_space u a v :
  is_space a = true ->
  scan_words (u +:+ String a v) =
    ((scan_words u).1, (scan_words u).2 ++ split_ws v).
Proof.
  intros Ha. induction u as [|b u IH].
  - rewrite append_nil. simpl. rewrite Ha. unfold split_ws.
    by destruct (scan_words v).
  - rewrite append_cons. simpl. rewrite IH.
    destruct (scan_words u) as [w ws]. simpl.
    destruct (is_space b); [|done]. by rewrite cons_word_app.
Qed.

(** White space between two texts keeps their words apart. *)
Lemma split_ws_app_space u a v :
  is_space a = true ->
  split_ws (u +:+ String a v) = split_ws u ++ split_ws v.
Proof.
  intros Ha. unfold split_ws at 1 2. rewrite scan_words_app_space by done.
  destruct (scan_words u) as [w ws]. simpl. apply cons_word_app.
Qed.

Lemma scan_words_word w :
  is_word_tail w = true -> scan_words w = (w, []).
Proof.
  induction w as [|a w IH]; simpl; [done|].
  intros [Ha Hw]%andb_prop. rewrite (IH Hw).
  apply negb_true_iff in Ha. by rewrite Ha.
Qed.

Lemma split_ws_word w : is_word w = true -> split_ws w = [w].
Proof.
  destruct w as [|a w]; [done|].
  unfold is_word. intros [_ Hw]%andb_prop.
  unfold split_ws. by rewrite scan_words_word.
Qed.

Lemma is_word_nonempty w : is_word w = true -> w <> EmptyString.
Proof. by destruct w. Qed.

Lemma scan_words_are_words s :
  is_word_tail (scan_words s).1 = true /\
  Forall (fun w => is_word w = true) (scan_words s).2.
Proof.
  induction s as [|a s [Hw Hws]]; simpl; [split; [done|constructor]|].
  destruct (scan_words s) as [w ws]. simpl in *.
  destruct (is_space a) eqn:Ha; simpl.
  - split; [done|]. destruct w as [|b w]; [done|].
    constructor; [|done]. unfold is_word. by rewrite Hw.
  - by rewrite Ha, Hw.
Qed.

(** [split()] yields words. *)
Lemma split_ws_words s : Forall (fun w => is_word w = true) (split_ws s).
Proof.
  unfold split_ws. destruct (scan_words_are_words s) as [Hw Hws].
  destruct (scan_words s) as [w ws]. simpl in *.
  destruct w as [|b w]; [done|].
  constructor; [|done]. unfold is_word. by rewrite Hw.
Qed.

(** Adding a word to the line in the making adds it to its words. *)
Lemma split_ws_test_line current_line word :
  is_word word = true ->
  split_ws (current_line +:+
            (if String.eqb current_line EmptyString then EmptyString
             else " ") +:+ word) =
    split_ws current_line ++ [word].
Proof.
  intros Hw. destruct (String.eqb_spec current_line EmptyString) as [->|_].
  - rewrite !append_nil. by apply split_ws_word.
  - change (" " +:+ word) with (String (Ascii.ascii_of_nat 32) word).
    rewrite split_ws_app_space by reflexivity.
    by rewrite (split_ws_word _ Hw).
Qed.

End Words.

Section PdfLayout.

Context (cv : Canvas).

Lemma lines_of_text_line line (l : Layout cv) :
  lines_of (text_line cv line l) = lines_of l ++ [line].
Proof.
  unfold lines_of, text_line. destruct (at_bottom cv (y l)); simpl.
  - rewrite concat_app. simpl. by rewrite app_nil_r.
  - by rewrite app_assoc.
Qed.

Lemma concat_pages (l : Layout cv) :
  concat (pages l ++ [textobject l]) = lines_of l.
Proof. unfold lines_of. rewrite concat_app. simpl. by rewrite app_nil_r. Qed.

Lemma words_of_app a b : words_of (a ++ b) = words_of a ++ words_of b.
Proof. apply flat_map_app. Qed.

Lemma words_of_line line : words_of [line] = split_ws line.
Proof. unfold words_of. simpl. apply app_nil_r. Qed.

(** *** No word is lost *)

Lemma wrap_words_words words :
  Forall (fun w => is_word w = true) words ->
  forall current_line (l : Layout cv),
    words_of (lines_of (wrap_words cv words current_line l).2) ++
    split_ws (wrap_words cv words current_line l).1 =
    words_of (lines_of l) ++ split_ws current_line ++ words.
Proof.
  induction 1 as [|word rest Hw Hrest IH]; intros current_line l;
    cbn [wrap_words].
  - simpl. by rewrite app_nil_r.
  - destruct (fits cv _).
    + rewrite IH, split_ws_test_line by done. by rewrite <- app_assoc.
    + rewrite IH, lines_of_text_line, words_of_app, words_of_line.
      rewrite (split_ws_word _ Hw). by rewrite <- app_assoc.
Qed.

Lemma layout_line_words (l : Layout cv) line :
  words_of (lines_of (layout_line cv l line)) =
    words_of (lines_of l) ++ split_ws line.
Proof.
  unfold layout_line. pose proof (split_ws_words line) as Hws.
  destruct (split_ws line) as [|w ws] eqn:E.
  - rewrite lines_of_text_line, words_of_app, words_of_line.
    reflexivity.
  - pose proof (wrap_words_words _ Hws EmptyString l) as Hwrap.
    destruct (wrap_words cv (w :: ws) EmptyString l) as [current_line l'].
    simpl in Hwrap.
    destruct (String.eqb_spec current_line EmptyString) as [->|_].
    + rewrite <- Hwrap. simpl. by rewrite app_nil_r.
    + by rewrite lines_of_text_line, words_of_app, words_of_line.
Qed.

Lemma fold_layout_words lines (l : Layout cv) :
  words_of (lines_of (fold_left (layout_line cv) lines l)) =
    words_of (lines_of l) ++ words_of lines.
Proof.
  revert l. induction lines as [|line lines IH]; intros l; simpl.
  - by rewrite app_nil_r.
  - rewrite IH, layout_line_words. unfold words_of at 4. simpl.
    by rewrite <- app_assoc.
Qed.

(** The words drawn on the pages are the words of the text, all of them
    and in their order: wrapping and page breaks lose no word, repeat none
    and add none. *)
Theorem pdf_keeps_the_words (markdown_text : string) :
  words_of (concat (generate_pdf_from_markdown cv markdown_text)) =
    words_of (split_lines markdown_text).
Proof.
  unfold generate_pdf_from_markdown. cbv zeta.
  rewrite concat_pages, fold_layout_words. reflexivity.
Qed.

(** *** Lines fit *)

Lemma wrap_words_ok words :
  Forall (fun w => is_word w = true) words ->
  forall current_line (l : Layout cv),
    line_ok cv current_line = true ->
    Forall (fun line => line_ok cv line = true) (lines_of l) ->
    Forall (fun line => line_ok cv line = true)
           (lines_of (wrap_words cv words current_line l).2) /\
    line_ok cv (wrap_words cv words current_line l).1 = true.
Proof.
  induction 1 as [|word rest Hw Hrest IH]; intros current_line l Hc Hl;
    cbn [wrap_words]; [done|].
  destruct (fits cv _) eqn:Hf.
  - apply IH; [|done]. unfold line_ok. rewrite Hf. by rewrite orb_true_r.
  - apply IH.
    + unfold line_ok. rewrite Hw. by rewrite orb_true_r.
    + rewrite lines_of_text_line. apply Forall_app. split; [done|].
      by constructor.
Qed.

Lemma layout_line_ok (l : Layout cv) line :
  Forall (fun line => line_ok cv line = true) (lines_of l) ->
  Forall (fun line => line_ok cv line = true)
         (lines_of (layout_line cv l line)).
Proof.
  intros Hl. unfold layout_line. pose proof (split_ws_words line) as Hws.
  destruct (split_ws line) as [|w ws] eqn:E.
  - rewrite lines_of_text_line. apply Forall_app. split; [done|].
    by constructor.
  - destruct (wrap_words_ok _ Hws EmptyString l eq_refl Hl) as [Hl' Hc].
    destruct (wrap_words cv (w :: ws) EmptyString l) as [current_line l'].
    simpl in *. destruct (String.eqb current_line EmptyString); [done|].
    rewrite lines_of_text_line. apply Forall_app. split; [done|].
    by constructor.
Qed.

Lemma fold_layout_ok lines (l : Layout cv) :
  Forall (fun line => line_ok cv line = true) (lines_of l) ->
  Forall (fun line => line_ok cv line = true)
         (lines_of (fold_left (layout_line cv) lines l)).
Proof.
  revert l. induction lines as [|line lines IH]; intros l Hl; simpl;
    [done|].
  by apply IH, layout_line_ok.
Qed.

(** Every line drawn is an empty line, or passed the width test, or is a
    single word of the text: a line too wide for the page holds one word
    only. *)
Theorem pdf_lines_fit_or_hold_one_word (markdown_text : string) :
  Forall (fun line =>
            line = EmptyString \/ fits cv line = true \/
            is_word line = true)
         (concat (generate_pdf_from_markdown cv markdown_text)).
Proof.
  unfold generate_pdf_from_markdown. cbv zeta. rewrite concat_pages.
  eapply Forall_impl; [apply fold_layout_ok; constructor|].
  intros line. unfold line_ok.
  intros [[He|Hf]%orb_prop|Hw]%orb_prop; auto.
  left. by apply String.eqb_eq.
Qed.

(** *** Lines are not dropped *)

Lemma wrap_words_grows words current_line (l : Layout cv) :
  length (lines_of l) <=
  length (lines_of (wrap_words cv words current_line l).2).
Proof.
  revert current_line l.
  induction words as [|word rest IH]; intros current_line l;
    cbn [wrap_words]; [done|].
  destruct (fits cv _); [apply IH|].
  etrans; [|apply IH]. rewrite lines_of_text_line, length_app. simpl. lia.
Qed.

Lemma wrap_words_nonempty words :
  Forall (fun w => is_word w = true) words ->
  forall current_line (l : Layout cv),
    words <> [] \/ current_line <> EmptyString ->
    (wrap_words cv words current_line l).1 <> EmptyString.
Proof.
  induction 1 as [|word rest Hw Hrest IH]; intros current_line l Hor;
    cbn [wrap_words].
  - by destruct Hor.
  - destruct (fits cv _); apply IH; right.
    + by apply append_nonempty_r, append_nonempty_r, is_word_nonempty.
    + by apply is_word_nonempty.
Qed.

Lemma layout_line_grows (l : Layout cv) line :
  S (length (lines_of l)) <= length (lines_of (layout_line cv l line)).
Proof.
  unfold layout_line. pose proof (split_ws_words line) as Hws.
  destruct (split_ws line) as [|w ws] eqn:E.
  - rewrite lines_of_text_line, length_app. simpl. lia.
  - pose proof (wrap_words_grows (w :: ws) EmptyString l) as Hg.
    pose proof (wrap_words_nonempty _ Hws EmptyString l) as Hne.
    destruct (wrap_words cv (w :: ws) EmptyString l) as [current_line l'].
    simpl in *.
    destruct (String.eqb_spec current_line EmptyString) as [Hc|_].
    + exfalso. apply Hne; [by left|done].
    + rewrite lines_of_text_line, length_app. simpl. lia.
Qed.

Lemma fold_layout_grows lines (l : Layout cv) :
  length (lines_of l) + length lines <=
  length (lines_of (fold_left (layout_line cv) lines l)).
Proof.
  revert l. induction lines as [|line lines IH]; intros l; simpl; [lia|].
  etrans; [|apply IH]. pose proof (layout_line_grows l line). lia.
Qed.

Lemma split_lines_nonempty s : 1 <= length (split_lines s).
Proof.
  induction s as [|a s IH]; simpl; [done|].
  destruct (Ascii.eqb a _); simpl; [lia|].
  destruct (split_lines s); simpl in *; lia.
Qed.

(** Every line of the text, blank ones included, takes at least one line
    of the PDF, and there is always at least one line: the empty text
    gives a page with an empty line. *)
Theorem pdf_has_a_line_per_line (markdown_text : string) :
  1 <= length (split_lines markdown_text) /\
  length (split_lines markdown_text) <=
    length (concat (generate_pdf_from_markdown cv markdown_text)).
Proof.
  split; [apply split_lines_nonempty|].
  unfold generate_pdf_from_markdown. cbv zeta. rewrite concat_pages.
  etrans; [|apply fold_layout_grows]. simpl. lia.
Qed.

(** *** Pages *)

Lemma text_line_tidy line (l : Layout cv) :
  tidy l -> tidy (text_line cv line l).
Proof.
  unfold tidy, text_line. intros [Hp Ht].
  destruct (at_bottom cv (y l)); simpl.
  - split; [|done]. destruct (pages l) as [|p ps]; simpl in *;
      [constructor|].
    apply Forall_app. split; [done|]. constructor; [|constructor].
    by apply Ht.
  - split; [done|]. intros _. by destruct (textobject l).
Qed.

Lemma wrap_words_tidy words current_line (l : Layout cv) :
  tidy l -> tidy (wrap_words cv words current_line l).2.
Proof.
  revert current_line l.
  induction words as [|word rest IH]; intros current_line l Hl;
    cbn [wrap_words]; [done|].
  destruct (fits cv _); apply IH; [done|]. by apply text_line_tidy.
Qed.

Lemma layout_line_tidy (l : Layout cv) line :
  tidy l -> tidy (layout_line cv l line).
Proof.
  intros Hl. unfold layout_line.
  destruct (split_ws line) as [|w ws]; [by apply text_line_tidy|].
  pose proof (wrap_words_tidy (w :: ws) EmptyString l Hl) as Hw.
  destruct (wrap_words cv (w :: ws) EmptyString l) as [current_line l'].
  simpl in *. destruct (String.eqb current_line EmptyString); [done|].
  by apply text_line_tidy.
Qed.

Lemma fold_layout_tidy lines (l : Layout cv) :
  tidy l -> tidy (fold_left (layout_line cv) lines l).
Proof.
  revert l. induction lines as [|line lines IH]; intros l Hl; simpl;
    [done|].
  by apply IH, layout_line_tidy.
Qed.

(** A page break never leaves an empty page behind: every page of the
    PDF after the first has at least one line. *)
Theorem pdf_has_no_blank_page (markdown_text : string) :
  no_blank_page (generate_pdf_from_markdown cv markdown_text).
Proof.
  unfold no_blank_page, generate_pdf_from_markdown. cbv zeta.
  set (l := fold_left _ _ _).
  assert (tidy l) as [Hp Ht].
  { apply fold_layout_tidy. split; [constructor|done]. }
  destruct (pages l) as [|p ps]; simpl in *; [constructor|].
  apply Forall_app. split; [done|]. constructor; [|constructor].
  by apply Ht.
Qed.

(** *** When nothing needs wrapping *)

Lemma concat_cons2 sep x y (rest : list string) :
  String.concat sep (x :: y :: rest) =
    x +:+ sep +:+ String.concat sep (y :: rest).
Proof. reflexivity. Qed.

Lemma concat_join current_line word rest :
  String.concat " " ((current_line +:+ " " +:+ word) :: rest) =
  String.concat " " (current_line :: word :: rest).
Proof.
  destruct rest as [|next rest]; [reflexivity|].
  rewrite (concat_cons2 " " (current_line +:+ " " +:+ word) next rest).
  rewrite (concat_cons2 " " current_line word (next :: rest)).
  rewrite (concat_cons2 " " word next rest).
  rewrite (append_assoc current_line (" " +:+ word)).
  by rewrite (append_assoc " " word).
Qed.

Lemma wrap_words_all_fit words :
  Forall (fun w => is_word w = true) words ->
  forall current_line (l : Layout cv),
    current_line <> EmptyString ->
    forallb (fits cv) (candidates_from current_line words) = true ->
    wrap_words cv words current_line l =
      (String.concat " " (current_line :: words), l).
Proof.
  induction 1 as [|word rest Hw Hrest IH];
    intros current_line l Hc; cbn [wrap_words candidates_from forallb];
    [done|].
  destruct (String.eqb_spec current_line EmptyString) as [->|_]; [done|].
  intros [Hf Hr]%andb_prop. rewrite Hf, IH.
  - by rewrite concat_join.
  - by apply append_nonempty_r, append_nonempty_r, is_word_nonempty.
  - exact Hr.
Qed.

Lemma layout_line_all_fit (l : Layout cv) line :
  forallb (fits cv) (candidates_from EmptyString (split_ws line)) = true ->
  lines_of (layout_line cv l line) = lines_of l ++ [normalize_line line].
Proof.
  unfold layout_line, normalize_line.
  pose proof (split_ws_words line) as Hws.
  destruct (split_ws line) as [|w ws] eqn:E.
  - intros _. by rewrite lines_of_text_line.
  - assert (w :: ws <> []) as Hnil by discriminate.
    pose proof (wrap_words_nonempty (w :: ws) Hws EmptyString l
                  (or_introl Hnil)) as Hne.
    apply Forall_cons_1 in Hws as [Hw Hws'].
    cbn [candidates_from forallb].
    change (EmptyString +:+
            (if String.eqb EmptyString EmptyString then EmptyString
             else " ") +:+ w) with w.
    intros [Hf Hr]%andb_prop.
    assert (wrap_words cv (w :: ws) EmptyString l =
            (String.concat " " (w :: ws), l)) as Hwrap.
    { cbn [wrap_words].
      change (EmptyString +:+
              (if String.eqb EmptyString EmptyString then EmptyString
               else " ") +:+ w) with w.
      rewrite Hf.
      apply (wrap_words_all_fit ws Hws' w l); [|exact Hr].
      by apply is_word_nonempty. }
    rewrite Hwrap in Hne. rewrite Hwrap.
    destruct (String.eqb_spec (String.concat " " (w :: ws)) EmptyString)
      as [Hc|_]; [done|].
    by rewrite lines_of_text_line.
Qed.

Lemma fold_layout_all_fit lines (l : Layout cv) :
  forallb (fun line =>
             forallb (fits cv) (candidates_from EmptyString (split_ws line)))
          lines = true ->
  lines_of (fold_left (layout_line cv) lines l) =
    lines_of l ++ map normalize_line lines.
Proof.
  revert l. induction lines as [|line lines IH]; intros l; simpl.
  - intros _. by rewrite app_nil_r.
  - intros [Hline Hlines]%andb_prop.
    rewrite IH, layout_line_all_fit by done. by rewrite <- app_assoc.
Qed.

(** When every candidate line of the text passes the width test (for each
    line of the text: its first word, its first two words one space apart,
    and so on), nothing is wrapped: the lines of the PDF are the lines of
    the text, one for one, each with its words one space apart. *)
Theorem pdf_unwrapped_when_all_fits (markdown_text : string) :
  all_candidates_fit cv markdown_text = true ->
  concat (generate_pdf_from_markdown cv markdown_text) =
    map normalize_line (split_lines markdown_text).
Proof.
  intros Hfit. unfold generate_pdf_from_markdown. cbv zeta.
  rewrite concat_pages, fold_layout_all_fit by done. reflexivity.
Qed.

End PdfLayout.

Lemma pdf_unwrapped_when_all_fits_witness :
  all_candidates_fit narrow_canvas
    ("Key  points " +:+ nl +:+ nl +:+ "Cost fell.") = true /\
  fits narrow_canvas "this line is wider than the page" = false /\
  concat (generate_pdf_from_markdown narrow_canvas
            ("Key  points " +:+ nl +:+ nl +:+ "Cost fell.")) =
    ["Key points"; EmptyString; "Cost fell."].
Proof.
  split; [reflexivity|]. split; [reflexivity|].
  exact (pdf_unwrapped_when_all_fits narrow_canvas
           ("Key  points " +:+ nl +:+ nl +:+ "Cost fell.") eq_refl).
Defined.

(** ** [app.py]: the form *)

Section FormProperties.

Context (web : Web) (API_URL : string) (cv : Canvas) (ui : Ui).

Lemma rstrip_blank s : is_blank s = true -> rstrip s = EmptyString.
Proof.
  induction s as [|a s IH]; simpl; [done|].
  intros [Ha Hs]%andb_prop. by rewrite (IH Hs), Ha.
Qed.

Lemma strip_blank s : is_blank s = true -> strip s = EmptyString.
Proof. intros Hs. unfold strip. by rewrite rstrip_blank. Qed.

(** A form sent with nothing but white space in the text box and no file
    does not reach the backend: the page warns, and the messages of the
    session stay as they are. *)
Theorem blank_form_only_warns
    (text_input : string) (messages : list Message) :
  is_blank text_input = true ->
  on_submit web API_URL cv ui text_input None messages =
    (Ok tt, messages,
     [UiWarning "Please enter a question or upload a file."]).
Proof.
  intros Hblank. unfold on_submit, user_content_of.
  rewrite (strip_blank _ Hblank).
  by destruct (String.eqb text_input EmptyString).
Qed.

(** Whatever is typed or uploaded, one submission calls the backend at
    most once, and never with an empty query. *)
Theorem page_never_posts_an_empty_query
    (text_input : string) (uploaded_file : option (UploadedFile ui))
    (messages : list Message) :
  let evs := (on_submit web API_URL cv ui text_input uploaded_file
                        messages).2 in
  length (api_calls evs) <= 1 /\
  Forall (fun user_content => user_content <> EmptyString) (api_calls evs).
Proof.
  unfold on_submit.
  destruct (match uploaded_file with
            | Some f => extract_file_text ui f
            | None => Ok EmptyString
            end) as [file_text|e]; [|by split; [simpl; lia|constructor]].
  destruct (String.eqb_spec (user_content_of text_input file_text)
                            EmptyString) as [_|Hne];
    [by split; [simpl; lia|constructor]|].
  destruct (call_research_api web API_URL _) as [response|e];
    [|by split; [simpl; lia|repeat constructor]].
  destruct (markdown_markdown ui response) as [html_report|e];
    [|by split; [simpl; lia|repeat constructor]].
  destruct response; simpl; (split; [lia|by repeat constructor]).
Qed.

(** The messages of the session only grow, and in the order of the
    exchange: a run that ends normally either added nothing (the warning)
    or added the user's message and then the backend's answer; a run that
    broke off added the user's message at most. *)
Theorem page_history_grows_in_order
    (text_input : string) (uploaded_file : option (UploadedFile ui))
    (messages : list Message) :
  let out := on_submit web API_URL cv ui text_input uploaded_file
                       messages in
  exists added,
    out.1.2 = messages ++ added /\
    match out.1.1 with
    | Ok _ =>
        added = [] \/
        exists user_content response,
          call_research_api web API_URL user_content =
            Ok (PyStr response) /\
          added =
            [{| message_role := "user"; content := PyStr user_content |};
             {| message_role := "assistant";
                content := PyStr response |}]
    | Raise _ =>
        added = [] \/
        exists user_content,
          added =
            [{| message_role := "user"; content := PyStr user_content |}]
    end.
Proof.
  unfold on_submit.
  destruct (match uploaded_file with
            | Some f => extract_file_text ui f
            | None => Ok EmptyString
            end) as [file_text|e];
    [|exists []; simpl; split; [by rewrite app_nil_r|by left]].
  destruct (String.eqb (user_content_of text_input file_text) EmptyString);
    [exists []; simpl; split; [by rewrite app_nil_r|by left]|].
  destruct (call_research_api web API_URL _) as [response|e] eqn:Hcall;
    [|eexists; simpl; split; [reflexivity|right; eauto]].
  destruct (markdown_markdown ui response) as [html_report|e];
    [|eexists; simpl; split; [reflexivity|right; eauto]].
  destruct response;
    try (eexists; simpl; split; [reflexivity|right; eauto]).
  eexists. simpl. split; [by rewrite <- app_assoc|]. right. eauto.
Qed.

End FormProperties.

Lemma blank_form_only_warns_witness :
  is_blank ("  " +:+ nl) = true /\
  on_submit offline "http://localhost:8000/query" wide_canvas plain_ui
            ("  " +:+ nl) None [] =
    (Ok tt, [], [UiWarning "Please enter a question or upload a file."]).
Proof.
  split; [reflexivity|].
  exact (blank_form_only_warns offline "http://localhost:8000/query"
           wide_canvas plain_ui ("  " +:+ nl) [] eq_refl).
Defined.
